(** * sc4-cpu-options: the startup configurator of CPUOptionsDllDirector.cpp

    A shallow embedding of [src/CPUOptionsDllDirector.cpp]: the bit trick that
    picks one logical processor, the mapping of priority names to Win32
    priority classes, the reading of the priority from the settings file and
    the [OnStart] sequence, followed by the properties the specification
    states about them.

    C++ exceptions are results in a sum type, the process-wide state (affinity
    mask, priority class), the calls made to the operating system and the
    logger are fields of an explicit [World] threaded through a small
    state-and-exception monad. *)

From Stdlib Require Import ZArith Lia Bool List Ascii String.
Import ListNotations.

Local Open Scope string_scope.
Local Open Scope Z_scope.

(** ** Platform constants

    [<Windows.h>] and [version.h] are not among the sources: the width of
    [DWORD_PTR], the values of the [*_PRIORITY_CLASS] macros and the version
    string are parameters of the development.  [Win32_x86] and [Win32_x64]
    below carry the values of the Windows SDK for the 32-bit and the 64-bit
    build, with a version string chosen for the examples. *)

Class Platform : Type := {
  ptr_bits : Z;
  HIGH_PRIORITY_CLASS : Z;
  ABOVE_NORMAL_PRIORITY_CLASS : Z;
  NORMAL_PRIORITY_CLASS : Z;
  BELOW_NORMAL_PRIORITY_CLASS : Z;
  IDLE_PRIORITY_CLASS : Z;
  PLUGIN_VERSION_STR : string
}.

Definition Win32_x86 : Platform := {|
  ptr_bits := 32;
  HIGH_PRIORITY_CLASS := 0x80;
  ABOVE_NORMAL_PRIORITY_CLASS := 0x8000;
  NORMAL_PRIORITY_CLASS := 0x20;
  BELOW_NORMAL_PRIORITY_CLASS := 0x4000;
  IDLE_PRIORITY_CLASS := 0x40;
  PLUGIN_VERSION_STR := "1.0.0"
|}.

Definition Win32_x64 : Platform := {|
  ptr_bits := 64;
  HIGH_PRIORITY_CLASS := 0x80;
  ABOVE_NORMAL_PRIORITY_CLASS := 0x8000;
  NORMAL_PRIORITY_CLASS := 0x20;
  BELOW_NORMAL_PRIORITY_CLASS := 0x4000;
  IDLE_PRIORITY_CLASS := 0x40;
  PLUGIN_VERSION_STR := "1.0.0"
|}.

(** ** Machine integers

    A [DWORD_PTR] (and [uintptr_t]) is a [Z] in [0, 2^ptr_bits); an [intptr_t]
    is a [Z] in [-2^(ptr_bits-1), 2^(ptr_bits-1)). *)

Module MachineInt.

(** [static_cast<uintptr_t>]: reduction modulo [2^w]. *)
Definition to_unsigned (w x : Z) : Z := x mod 2 ^ w.

(** [static_cast<intptr_t>]: the two's complement reading of the low [w]
    bits. *)
Definition to_signed (w x : Z) : Z :=
  let u := x mod 2 ^ w in
  if u <? 2 ^ (w - 1) then u else u - 2 ^ w.

(** Unary minus on [intptr_t].  The most negative value has no positive
    counterpart; the result wraps around to itself, which is what the
    comment in the source ("integers are two's complement") relies on. *)
Definition neg_signed (w x : Z) : Z := to_signed w (- x).

Definition in_range (w x : Z) : Prop := 0 <= x < 2 ^ w.

End MachineInt.

Section BitTrick.

Context {P : Platform}.

(** [GetLowestSetBitMask], lines 55-62:
    [static_cast<DWORD_PTR>(static_cast<uintptr_t>(value) & -static_cast<intptr_t>(value))].
    The right operand of [&] is converted to [uintptr_t] by the usual
    arithmetic conversions. *)
Definition GetLowestSetBitMask (value : Z) : Z :=
  MachineInt.to_unsigned ptr_bits
    (Z.land (MachineInt.to_unsigned ptr_bits value)
            (MachineInt.to_unsigned ptr_bits
               (MachineInt.neg_signed ptr_bits
                  (MachineInt.to_signed ptr_bits value)))).

End BitTrick.

(** What the specification calls the lowest set bit of a mask: the power of
    two at the least index whose bit is set. *)
Definition is_lowest_set_bit (M r : Z) : Prop :=
  exists i, 0 <= i /\ r = 2 ^ i /\ Z.testbit M i = true /\
            forall j, 0 <= j < i -> Z.testbit M j = false.

(** [r] is a submask of [M]: every bit of [r] is a bit of [M]. *)
Definition submask (r M : Z) : Prop := Z.land r M = r.

(** At most one bit of [r] is set. *)
Definition at_most_one_bit (r : Z) : Prop :=
  forall i j, 0 <= i -> 0 <= j ->
              Z.testbit r i = true -> Z.testbit r j = true -> i = j.

(** ** Strings

    A [std::string] or [std::string_view] is a [string]: a sequence of bytes
    with its own length, in which the byte 0 may occur.  A [const char*] read
    by [%s] or by the [std::string] constructor ends at its first byte 0. *)

Module Str.

(** [c_str()] as its reader sees it: the bytes before the first byte 0.
    The same truncation happens when a [std::string] is built from a
    [const char*], as at the call of [ProcessCPUPriorityValue] in
    [OnStart]. *)
Fixpoint c_str (s : string) : string :=
  match s with
  | EmptyString => EmptyString
  | String c rest =>
      if Ascii.eqb c zero then EmptyString else String c (c_str rest)
  end.

(** [std::toupper(c, std::locale())] in the classic "C" locale, the
    process default: the letters a-z go to A-Z, every other byte is left
    alone. *)
Definition toupper (c : ascii) : ascii :=
  let n := N_of_ascii c in
  if ((97 <=? n) && (n <=? 122))%N then ascii_of_N (n - 32) else c.

(** [boost::iequals]: both ranges are walked together, the elements are
    compared after [toupper], and both must end at the same time. *)
Fixpoint iequals (lhs rhs : string) : bool :=
  match lhs, rhs with
  | EmptyString, EmptyString => true
  | String x lhs', String y rhs' =>
      if Ascii.eqb (toupper x) (toupper y) then iequals lhs' rhs' else false
  | _, _ => false
  end.

(** One [%s] directive of a printf-style format, replaced by its
    argument. *)
Fixpoint format_s (fmt arg : string) : string :=
  match fmt with
  | EmptyString => EmptyString
  | String c rest =>
      match rest with
      | String d rest' =>
          if Ascii.eqb c "%" && Ascii.eqb d "s" then arg ++ rest'
          else String c (format_s rest arg)
      | EmptyString => fmt
      end
  end.

(** No byte of the string is 0. *)
Fixpoint nul_free (s : string) : bool :=
  match s with
  | EmptyString => true
  | String c rest => negb (Ascii.eqb c zero) && nul_free rest
  end.

(** [line] contains [part] as a contiguous run of bytes. *)
Definition contains (line part : string) : Prop :=
  exists before after, line = before ++ part ++ after.

End Str.

(** [EqualsIgnoreCase], lines 40-44. *)
Definition EqualsIgnoreCase (lhs rhs : string) : bool :=
  Nat.eqb (String.length lhs) (String.length rhs) && Str.iequals lhs rhs.

(** The relation the specification calls "case variant": the same length,
    and at every position either the same byte or the lower-case and
    upper-case form of one letter of a-z. *)
Definition same_letter (c d : ascii) : Prop :=
  let m := N_of_ascii c in
  let n := N_of_ascii d in
  (m = n \/ (97 <= m <= 122 /\ m = n + 32) \/ (97 <= n <= 122 /\ n = m + 32))%N.

Inductive case_variant : string -> string -> Prop :=
| cv_empty : case_variant EmptyString EmptyString
| cv_char (c d : ascii) (s t : string) :
    same_letter c d -> case_variant s t ->
    case_variant (String c s) (String d t).

(** The six names [ProcessCPUPriorityValue] compares with. *)
Definition recognized_names : list string :=
  ["High"; "AboveNormal"; "Normal"; "BelowNormal"; "Idle"; "Low"]%string.

(** ** Exceptions *)

(** The exception types that occur in the file; all of them derive from
    [std::exception]. *)
Inductive exn : Type :=
| wil_ResultException (what : string)
| std_runtime_error (what : string)
| ini_parser_error (what : string)
| ptree_bad_path (what : string).

Definition what (e : exn) : string :=
  match e with
  | wil_ResultException m | std_runtime_error m
  | ini_parser_error m | ptree_bad_path m => m
  end.

(** [catch (const wil::ResultException&)] *)
Definition is_wil_ResultException (e : exn) : bool :=
  match e with wil_ResultException _ => true | _ => false end.

(** [catch (const std::exception&)] *)
Definition is_std_exception (e : exn) : bool := true.

(** ** The world around the plugin *)

(** [boost::property_tree::ptree]: a node carries data and an ordered list
    of named children. *)
#[warnings="-register-all"] Inductive ptree : Type :=
| Node (data : string) (children : list (string * ptree)).

(** What opening the settings file and parsing it yields.  The file system
    and [read_ini] are outside the plugin; their three possible answers are
    taken as given. *)
Inductive SettingsFile : Type :=
| CannotOpen
| Unparseable (what : string)
| Parsed (tree : ptree).

Inductive LogLevel : Type := Info | Error.

Inductive LogEntry : Type :=
| Header (text : string)
| Line (level : LogLevel) (text : string).

(** The calls to the operating system that the plugin makes. *)
Inductive OsCall : Type :=
| CallGetProcessAffinityMask
| CallSetProcessAffinityMask (mask : Z)
| CallSetPriorityClass (cls : Z).

Record World : Type := mkWorld {
  (** the host's command line: the value of a switch when it is present *)
  switches : string -> option string;
  (** the settings file next to the DLL *)
  settingsFile : SettingsFile;
  (** when the operating system refuses a call, the text of its error *)
  getAffinityFails : option string;
  setAffinityFails : Z -> option string;
  setPriorityFails : Z -> option string;
  (** the state of the process *)
  processAffinityMask : Z;
  systemAffinityMask : Z;
  priorityClass : Z;
  lastError : string;
  (** what has been observed so far *)
  osCalls : list OsCall;
  loggerLevel : option LogLevel;
  logOutput : list LogEntry
}.

Module Upd.

Definition put_lastError (m : string) (w : World) : World :=
  mkWorld (switches w) (settingsFile w) (getAffinityFails w)
          (setAffinityFails w) (setPriorityFails w)
          (processAffinityMask w) (systemAffinityMask w) (priorityClass w)
          m (osCalls w) (loggerLevel w) (logOutput w).

Definition put_processAffinityMask (m : Z) (w : World) : World :=
  mkWorld (switches w) (settingsFile w) (getAffinityFails w)
          (setAffinityFails w) (setPriorityFails w)
          m (systemAffinityMask w) (priorityClass w)
          (lastError w) (osCalls w) (loggerLevel w) (logOutput w).

Definition put_priorityClass (c : Z) (w : World) : World :=
  mkWorld (switches w) (settingsFile w) (getAffinityFails w)
          (setAffinityFails w) (setPriorityFails w)
          (processAffinityMask w) (systemAffinityMask w) c
          (lastError w) (osCalls w) (loggerLevel w) (logOutput w).

Definition add_call (c : OsCall) (w : World) : World :=
  mkWorld (switches w) (settingsFile w) (getAffinityFails w)
          (setAffinityFails w) (setPriorityFails w)
          (processAffinityMask w) (systemAffinityMask w) (priorityClass w)
          (lastError w) (osCalls w ++ [c]) (loggerLevel w) (logOutput w).

Definition put_loggerLevel (l : option LogLevel) (w : World) : World :=
  mkWorld (switches w) (settingsFile w) (getAffinityFails w)
          (setAffinityFails w) (setPriorityFails w)
          (processAffinityMask w) (systemAffinityMask w) (priorityClass w)
          (lastError w) (osCalls w) l (logOutput w).

Definition add_log (e : LogEntry) (w : World) : World :=
  mkWorld (switches w) (settingsFile w) (getAffinityFails w)
          (setAffinityFails w) (setPriorityFails w)
          (processAffinityMask w) (systemAffinityMask w) (priorityClass w)
          (lastError w) (osCalls w) (loggerLevel w) (logOutput w ++ [e]).

End Upd.

(** ** The monad of the plugin's code: state and exceptions *)

Definition M (A : Type) : Type := World -> (A + exn) * World.

Definition ret {A : Type} (a : A) : M A := fun w => (inl a, w).

Definition bind {A B : Type} (c : M A) (k : A -> M B) : M B :=
  fun w =>
    match c w with
    | (inl a, w') => k a w'
    | (inr e, w') => (inr e, w')
    end.

Definition throw {A : Type} (e : exn) : M A := fun w => (inr e, w).

(** [try { body } catch (const T& e) { handler }], where [catches] tells
    which exceptions are of type [T]. *)
Definition try_catch {A : Type} (body : M A) (catches : exn -> bool)
    (handler : exn -> M A) : M A :=
  fun w =>
    match body w with
    | (inl a, w') => (inl a, w')
    | (inr e, w') => if catches e then handler e w' else (inr e, w')
    end.

Notation "x <- c ;; k" := (bind c (fun x => k))
  (at level 61, c at next level, right associativity).
Notation "c ;; k" := (bind c (fun _ => k))
  (at level 61, right associativity).

(** The world after a computation, and how it ended. *)
Definition world_after {A : Type} (c : M A) (w : World) : World := snd (c w).
Definition outcome {A : Type} (c : M A) (w : World) : A + exn := fst (c w).

(** ** The logger *)

Module Logger.

(** Modelled from the spec: [Logger::Init] ([Logger.h] and its
    implementation are not among the sources).  The log is opened once with a
    minimum severity; the director passes [LogLevel::Error]. *)
Definition Init (level : LogLevel) : M unit :=
  fun w =>
    match loggerLevel w with
    | None => (inl tt, Upd.put_loggerLevel (Some level) w)
    | Some _ => (inl tt, w)
    end.

(** Modelled from the spec: [Logger::WriteLogFileHeader].  The log starts
    with a header line that identifies the component version. *)
Definition WriteLogFileHeader (text : string) : M unit :=
  fun w => (inl tt, Upd.add_log (Header text) w).

(** Modelled from the spec: [Logger::WriteLine].  A severity-tagged line is
    written for every decision and every error; with the minimum severity at
    error level the informational lines are written as well. *)
Definition WriteLine (level : LogLevel) (message : string) : M unit :=
  fun w => (inl tt, Upd.add_log (Line level message) w).

(** Modelled from the spec: [Logger::WriteLineFormatted].  The line is the
    printf-style [format] with its [%s] replaced by the C string [arg]. *)
Definition WriteLineFormatted (level : LogLevel) (format arg : string)
  : M unit :=
  WriteLine level (Str.format_s format arg).

End Logger.

(** ** The operating system and the host *)

Module Win32.

(** [GetProcessAffinityMask(hProcess, &process, &system)]: a [BOOL] and the
    two masks written through the pointers. *)
Definition GetProcessAffinityMask : M (bool * (Z * Z)) :=
  fun w =>
    let w' := Upd.add_call CallGetProcessAffinityMask w in
    match getAffinityFails w with
    | None => (inl (true, (processAffinityMask w, systemAffinityMask w)), w')
    | Some err => (inl (false, (0, 0)), Upd.put_lastError err w')
    end.

(** [SetProcessAffinityMask(hProcess, mask)] *)
Definition SetProcessAffinityMask (mask : Z) : M bool :=
  fun w =>
    let w' := Upd.add_call (CallSetProcessAffinityMask mask) w in
    match setAffinityFails w mask with
    | None => (inl true, Upd.put_processAffinityMask mask w')
    | Some err => (inl false, Upd.put_lastError err w')
    end.

(** [SetPriorityClass(GetCurrentProcess(), cls)] *)
Definition SetPriorityClass (cls : Z) : M bool :=
  fun w =>
    let w' := Upd.add_call (CallSetPriorityClass cls) w in
    match setPriorityFails w cls with
    | None => (inl true, Upd.put_priorityClass cls w')
    | Some err => (inl false, Upd.put_lastError err w')
    end.

(** [THROW_IF_WIN32_BOOL_FALSE]: a false [BOOL] becomes a
    [wil::ResultException] that carries the text of the last error. *)
Definition THROW_IF_WIN32_BOOL_FALSE (result : bool) : M unit :=
  fun w =>
    if result then (inl tt, w)
    else (inr (wil_ResultException (lastError w)), w).

End Win32.

Module Host.

(** [cIGZCmdLine::IsSwitchPresent(name, value, true)]: tells whether the
    switch is on the command line and, when it is, stores its value in the
    out-parameter. *)
Definition IsSwitchPresent (name value : string) : M (bool * string) :=
  fun w =>
    match switches w name with
    | Some v => (inl (true, v), w)
    | None => (inl (false, value), w)
    end.

(** [cRZBaseString::ToChar()]: the value as a [const char*]. *)
Definition ToChar (value : string) : string := Str.c_str value.

End Host.

Module Ini.

(** The path separator of [ptree::get] is the dot. *)
Fixpoint split_path (acc path : string) : list string :=
  match path with
  | EmptyString => [acc]
  | String c rest =>
      if Ascii.eqb c "." then acc :: split_path EmptyString rest
      else split_path (acc ++ String c EmptyString) rest
  end.

Fixpoint find_child (key : string) (children : list (string * ptree))
  : option ptree :=
  match children with
  | [] => None
  | (k, t) :: rest => if String.eqb k key then Some t else find_child key rest
  end.

Fixpoint walk_path (keys : list string) (t : ptree) : option ptree :=
  match keys with
  | [] => Some t
  | k :: rest =>
      match t with
      | Node _ children =>
          match find_child k children with
          | Some child => walk_path rest child
          | None => None
          end
      end
  end.

(** [tree.get<std::string>(path)]: the data of the node at [path], or
    [ptree_bad_path] when there is no such node. *)
Definition get (tree : ptree) (path : string) : M string :=
  match walk_path (split_path EmptyString path) tree with
  | Some (Node data _) => ret data
  | None => throw (ptree_bad_path ("No such node (" ++ path ++ ")"))
  end.

(** [std::ifstream stream(configFilePath)] followed by [!stream]: whether
    the stream is in a good state. *)
Definition ifstream_open : M bool :=
  fun w =>
    match settingsFile w with
    | CannotOpen => (inl false, w)
    | _ => (inl true, w)
    end.

(** [read_ini(stream, tree)]: the parsed tree, or [ini_parser_error]. *)
Definition read_ini : M ptree :=
  fun w =>
    match settingsFile w with
    | Parsed tree => (inl tree, w)
    | Unparseable msg => (inr (ini_parser_error msg), w)
    | CannotOpen => (inr (ini_parser_error "read error"), w)
    end.

End Ini.

(** ** The plugin *)

Section Plugin.

Context {P : Platform}.

(** [ConfigureForSingleCPU], lines 64-96. *)
Definition ConfigureForSingleCPU : M unit :=
  try_catch
    (r <- Win32.GetProcessAffinityMask ;;
     Win32.THROW_IF_WIN32_BOOL_FALSE (fst r) ;;
     let systemAffinityMask := snd (snd r) in
     let firstLogicalProcessor := GetLowestSetBitMask systemAffinityMask in
     ok <- Win32.SetProcessAffinityMask firstLogicalProcessor ;;
     Win32.THROW_IF_WIN32_BOOL_FALSE ok ;;
     Logger.WriteLine Info "Configured the game to use 1 CPU core.")
    is_wil_ResultException
    (fun e =>
       Logger.WriteLineFormatted Error
         "An OS error occurred when configuring the game to use 1 CPU core: %s."
         (what e)).

(** [ProcessCPUPriorityValue], lines 98-169. *)
Definition ProcessCPUPriorityValue (priority : string)
    (isCPUPriorityArgument : bool) : M unit :=
  cpuPriority <-
    (if EqualsIgnoreCase priority "High" then ret HIGH_PRIORITY_CLASS
     else if EqualsIgnoreCase priority "AboveNormal"
     then ret ABOVE_NORMAL_PRIORITY_CLASS
     else if EqualsIgnoreCase priority "Normal" then ret NORMAL_PRIORITY_CLASS
     else if EqualsIgnoreCase priority "BelowNormal"
     then ret BELOW_NORMAL_PRIORITY_CLASS
     else if EqualsIgnoreCase priority "Idle" then ret IDLE_PRIORITY_CLASS
     else if EqualsIgnoreCase priority "Low"
     then (if isCPUPriorityArgument
           then Logger.WriteLine Info "SC4 set its CPU priority to Low." ;;
                ret 0
           else ret IDLE_PRIORITY_CLASS)
     else Logger.WriteLineFormatted Error
            "Unsupported CPU priority value: %s" (Str.c_str priority) ;;
          ret 0) ;;
  if negb (cpuPriority =? 0)
  then try_catch
         (ok <- Win32.SetPriorityClass cpuPriority ;;
          Win32.THROW_IF_WIN32_BOOL_FALSE ok ;;
          Logger.WriteLineFormatted Info
            "Set the game's CPU priority to %s." (Str.c_str priority))
         is_wil_ResultException
         (fun e =>
            Logger.WriteLineFormatted Error
              "An OS error occurred when setting the CPU priority: %s."
              (what e))
  else ret tt.

(** [CPUOptionsDllDirector::SetCPUPriorityFromConfigFile], lines 239-267. *)
Definition SetCPUPriorityFromConfigFile : M unit :=
  try_catch
    (stream <- Ini.ifstream_open ;;
     (if negb stream
      then throw (std_runtime_error "Failed to open the settings file.")
      else ret tt) ;;
     tree <- Ini.read_ini ;;
     cpuPriority <- Ini.get tree "CPUOptions.Priority" ;;
     ProcessCPUPriorityValue cpuPriority false)
    is_std_exception
    (fun e =>
       Logger.WriteLineFormatted Error
         "Error when setting the CPU priority: %s" (what e)).

(** The constructor of [CPUOptionsDllDirector], lines 176-189, as far as
    the logger is concerned. *)
Definition CPUOptionsDllDirector_ctor : M unit :=
  Logger.Init Error ;;
  Logger.WriteLogFileHeader ("SC4CPUOptions v" ++ PLUGIN_VERSION_STR).

(** [CPUOptionsDllDirector::OnStart], lines 196-235. *)
Definition OnStart : M bool :=
  let value := EmptyString in
  r <- Host.IsSwitchPresent "CPUCount" value ;;
  let value := snd r in
  (if fst r
   then Logger.WriteLineFormatted Info
          "Skipped forcing the game to a single CPU because the command line contains -CPUCount:%s."
          (Host.ToChar value)
   else ConfigureForSingleCPU) ;;
  r <- Host.IsSwitchPresent "CPUPriority" value ;;
  let value := snd r in
  (if fst r
   then ProcessCPUPriorityValue (Host.ToChar value) true
   else SetCPUPriorityFromConfigFile) ;;
  ret true.

End Plugin.

(** A world in which nothing has happened yet: every call to the operating
    system succeeds, the command line has no switches, the settings file
    holds the given tree and the system offers the given processors. *)
Definition quiet_world (file : SettingsFile) (systemMask : Z) : World :=
  mkWorld (fun _ => None) file None (fun _ => None) (fun _ => None)
          systemMask systemMask 0x20 EmptyString [] None [].

(** The tree [read_ini] builds for a file that has a [Priority] key in its
    [[CPUOptions]] section. *)
Definition ini_with_priority (value : string) : ptree :=
  Node EmptyString
    [("CPUOptions"%string, Node EmptyString
        [("Priority"%string, Node value [])])].

(** The world of the examples: the system offers processors 1 and 3 (mask
    10), the operating system accepts every call, and the settings file has
    [Priority=AboveNormal] in its [[CPUOptions]] section. *)
Definition example_world : World :=
  quiet_world (Parsed (ini_with_priority "AboveNormal")) 10.

(** The same world without a settings file that can be opened. *)
Definition world_without_settings : World := quiet_world CannotOpen 10.

(** The world of the examples with an operating system that refuses every
    call. *)
Definition world_refusing_every_call : World :=
  mkWorld (fun _ => None) (Parsed (ini_with_priority "AboveNormal"))
          (Some "Access is denied"%string)
          (fun _ => Some "Access is denied"%string)
          (fun _ => Some "Access is denied"%string)
          10 10 0x20 EmptyString [] None [].

(** The world of the examples with an operating system that answers the
    query of the affinity masks and refuses every change. *)
Definition world_refusing_changes : World :=
  mkWorld (fun _ => None) (Parsed (ini_with_priority "AboveNormal"))
          None
          (fun _ => Some "Access is denied"%string)
          (fun _ => Some "Access is denied"%string)
          10 10 0x20 EmptyString [] None [].

(** A value with a byte 0 in the middle, as [read_ini] returns it for a
    settings file that has that byte in the line of the key. *)
Definition value_with_nul : string :=
  String "a" (String zero (String "b" EmptyString)).

(** How many of the calls set the priority class. *)
Definition is_priority_call (c : OsCall) : bool :=
  match c with CallSetPriorityClass _ => true | _ => false end.

Definition is_affinity_call (c : OsCall) : bool :=
  match c with
  | CallGetProcessAffinityMask | CallSetProcessAffinityMask _ => true
  | CallSetPriorityClass _ => false
  end.

Definition count_priority_calls (calls : list OsCall) : nat :=
  List.length (List.filter is_priority_call calls).


(** ** Vocabulary of the properties *)

(** Two's complement negation of a [w]-bit value. *)
Definition neg_twos_complement (w v : Z) : Z := (2 ^ w - v) mod 2 ^ w.

Section Vocabulary.

Context {P : Platform}.

(** The value of the local variable [cpuPriority] when control reaches the
    test at line 150. *)
Definition cpuPriority_at_line_150 (priority : string)
    (isCPUPriorityArgument : bool) : Z :=
  if EqualsIgnoreCase priority "High" then HIGH_PRIORITY_CLASS
  else if EqualsIgnoreCase priority "AboveNormal"
  then ABOVE_NORMAL_PRIORITY_CLASS
  else if EqualsIgnoreCase priority "Normal" then NORMAL_PRIORITY_CLASS
  else if EqualsIgnoreCase priority "BelowNormal"
  then BELOW_NORMAL_PRIORITY_CLASS
  else if EqualsIgnoreCase priority "Idle" then IDLE_PRIORITY_CLASS
  else if EqualsIgnoreCase priority "Low"
  then (if isCPUPriorityArgument then 0 else IDLE_PRIORITY_CLASS)
  else 0.

(** The calls to the operating system that a priority value leads to. *)
Definition priority_calls (priority : string) (isCPUPriorityArgument : bool)
  : list OsCall :=
  let cls := cpuPriority_at_line_150 priority isCPUPriorityArgument in
  if cls =? 0 then [] else [CallSetPriorityClass cls].

End Vocabulary.

(** The priority class of the process after [SetPriorityClass cls] has been
    attempted in [w]. *)
Definition priority_after (w : World) (cls : Z) : Z :=
  match setPriorityFails w cls with
  | None => cls
  | Some _ => priorityClass w
  end.

(** The string at [CPUOptions.Priority] of the settings file, when the file
    opens, parses and has the key. *)
Definition configured_priority (file : SettingsFile) : option string :=
  match file with
  | Parsed tree =>
      match Ini.walk_path ["CPUOptions"; "Priority"]%string tree with
      | Some (Node data _) => Some data
      | None => None
      end
  | _ => None
  end.

(** The surroundings of the plugin are the same in both worlds: command
    line, settings file, the answers of the operating system and the
    processors of the system. *)
Definition same_env (w w' : World) : Prop :=
  switches w' = switches w /\ settingsFile w' = settingsFile w /\
  getAffinityFails w' = getAffinityFails w /\
  setAffinityFails w' = setAffinityFails w /\
  setPriorityFails w' = setPriorityFails w /\
  systemAffinityMask w' = systemAffinityMask w.

(** The command line of [w] with the switch [name] given the value
    [value]. *)
Definition with_switch (name value : string) (w : World) : World :=
  mkWorld (fun n => if String.eqb n name then Some value else switches w n)
          (settingsFile w) (getAffinityFails w)
          (setAffinityFails w) (setPriorityFails w)
          (processAffinityMask w) (systemAffinityMask w) (priorityClass w)
          (lastError w) (osCalls w) (loggerLevel w) (logOutput w).

(** The world [w] with another settings file next to the DLL. *)
Definition with_settingsFile (file : SettingsFile) (w : World) : World :=
  mkWorld (switches w) file (getAffinityFails w)
          (setAffinityFails w) (setPriorityFails w)
          (processAffinityMask w) (systemAffinityMask w) (priorityClass w)
          (lastError w) (osCalls w) (loggerLevel w) (logOutput w).

Section PriorityNames.

Context {P : Platform}.

(** The names that stand for one priority class whatever their source, with
    the macro each of them is given at lines 104-125. *)
Definition class_of_name : list (string * Z) :=
  [("High"%string, HIGH_PRIORITY_CLASS);
   ("AboveNormal"%string, ABOVE_NORMAL_PRIORITY_CLASS);
   ("Normal"%string, NORMAL_PRIORITY_CLASS);
   ("BelowNormal"%string, BELOW_NORMAL_PRIORITY_CLASS);
   ("Idle"%string, IDLE_PRIORITY_CLASS)].

(** The five priority classes the plugin knows. *)
Definition priority_classes : list Z := List.map snd class_of_name.

(** None of the five macros is 0, the value that lines 102 and 150 use for
    "no priority chosen". *)
Definition classes_nonzero : Prop :=
  forall cls, In cls priority_classes -> cls <> 0.

End PriorityNames.

Section BitTrickFacts.

Import MachineInt.

Lemma pow2_pos (w : Z) : 0 <= w -> 0 < 2 ^ w.
Proof. intros; apply Z.pow_pos_nonneg; lia. Qed.

Lemma to_signed_cong (w x : Z) :
  0 < w -> (to_signed w x) mod 2 ^ w = x mod 2 ^ w.
Proof.
  intros Hw. unfold to_signed.
  assert (0 < 2 ^ w) by (apply pow2_pos; lia).
  destruct (x mod 2 ^ w <? 2 ^ (w - 1)).
  - apply Z.mod_mod; lia.
  - rewrite <- (Z.mod_mod x (2 ^ w)) at 2 by lia.
    replace (x mod 2 ^ w - 2 ^ w) with (x mod 2 ^ w + (-1) * 2 ^ w) by ring.
    apply Z.mod_add; lia.
Qed.

(** The signed detour of the source is negation modulo [2^w]. *)
Lemma neg_signed_unsigned (w x : Z) :
  0 < w ->
  to_unsigned w (neg_signed w (to_signed w x)) = (- x) mod 2 ^ w.
Proof.
  intros Hw. unfold to_unsigned, neg_signed.
  assert (0 < 2 ^ w) by (apply pow2_pos; lia).
  rewrite to_signed_cong by assumption.
  rewrite <- (Z.mul_1_l (to_signed w x)), <- Z.mul_opp_l.
  rewrite <- Z.mul_mod_idemp_r by lia.
  rewrite to_signed_cong by assumption.
  rewrite Z.mul_mod_idemp_r by lia.
  f_equal; ring.
Qed.

(** [x & -x] on an odd number is 1. *)
Lemma land_opp_odd (m : Z) : Z.land (2 * m + 1) (- (2 * m + 1)) = 1.
Proof.
  replace (- (2 * m + 1)) with (2 * Z.lnot m + 1)
    by (pose proof (Z.add_lnot_diag m); lia).
  apply Z.bits_inj'; intros n Hn.
  rewrite Z.land_spec.
  destruct (Z.eq_dec n 0) as [->|Hne].
  - rewrite !Z.testbit_odd_0. reflexivity.
  - replace n with (Z.succ (n - 1)) by lia.
    rewrite !Z.testbit_odd_succ by lia.
    rewrite Z.lnot_spec by lia.
    replace 1 with (2 * 0 + 1) by lia.
    rewrite Z.testbit_odd_succ by lia.
    rewrite Z.testbit_0_l. apply andb_negb_r.
Qed.

(** A number whose least set bit has index [i] is [2^i] times an odd
    number. *)
Lemma lowest_bit_decompose (v i : Z) :
  0 <= i -> Z.testbit v i = true ->
  (forall j, 0 <= j < i -> Z.testbit v j = false) ->
  exists m, v = 2 ^ i * (2 * m + 1).
Proof.
  intros Hi Hset Hlow.
  assert (H2 : 0 < 2 ^ i) by (apply pow2_pos; lia).
  assert (Hmod : v mod 2 ^ i = 0).
  { apply Z.bits_inj'; intros n Hn. rewrite Z.bits_0.
    destruct (Z.lt_ge_cases n i).
    - rewrite Z.mod_pow2_bits_low by lia. apply Hlow; lia.
    - apply Z.mod_pow2_bits_high; lia. }
  assert (Hodd : Z.odd (v / 2 ^ i) = true).
  { rewrite <- Z.bit0_odd, <- Z.shiftr_div_pow2, Z.shiftr_spec by lia.
    now rewrite Z.add_0_l. }
  exists (v / 2 ^ i / 2).
  rewrite (Z.div_mod v (2 ^ i)) at 1 by lia.
  rewrite Hmod, Z.add_0_r. f_equal.
  rewrite (Z.div_mod (v / 2 ^ i) 2) at 1 by lia.
  rewrite Zmod_odd, Hodd. reflexivity.
Qed.

(** The heart of the trick on unbounded integers. *)
Lemma land_opp_lowest (v i : Z) :
  0 <= i -> Z.testbit v i = true ->
  (forall j, 0 <= j < i -> Z.testbit v j = false) ->
  Z.land v (- v) = 2 ^ i.
Proof.
  intros Hi Hset Hlow.
  destruct (lowest_bit_decompose v i Hi Hset Hlow) as [m ->].
  rewrite <- Z.mul_opp_r.
  rewrite !(Z.mul_comm (2 ^ i)), <- !Z.shiftl_mul_pow2 by lia.
  rewrite <- Z.shiftl_land, land_opp_odd.
  rewrite Z.shiftl_mul_pow2 by lia. ring.
Qed.

(** Every positive number has a least set bit. *)
Lemma lowest_bit_exists (v : Z) :
  0 < v ->
  exists i, 0 <= i /\ Z.testbit v i = true /\
            forall j, 0 <= j < i -> Z.testbit v j = false.
Proof.
  intros Hv. destruct v as [|p|p]; try lia. clear Hv.
  induction p as [p IH|p IH|].
  - exists 0. split; [lia|split; [reflexivity|intros; lia]].
  - destruct IH as (i & Hi & Hset & Hlow).
    exists (Z.succ i). split; [lia|split].
    + change (Z.pos p~0) with (2 * Z.pos p).
      rewrite Z.testbit_even_succ by lia. exact Hset.
    + intros j Hj. change (Z.pos p~0) with (2 * Z.pos p).
      destruct (Z.eq_dec j 0) as [->|Hne].
      * apply Z.testbit_even_0.
      * replace j with (Z.succ (j - 1)) by lia.
        rewrite Z.testbit_even_succ by lia. apply Hlow; lia.
  - exists 0. split; [lia|split; [reflexivity|intros; lia]].
Qed.

Context {P : Platform}.
Hypothesis ptr_bits_pos : 0 < ptr_bits.

(** On values of the type, the function is [value & (-value mod 2^w)]. *)
Lemma GetLowestSetBitMask_land (v : Z) :
  in_range ptr_bits v ->
  GetLowestSetBitMask v = Z.land v ((- v) mod 2 ^ ptr_bits).
Proof.
  intros Hr. unfold GetLowestSetBitMask.
  rewrite neg_signed_unsigned by assumption.
  unfold to_unsigned. rewrite (Z.mod_small v) by exact Hr.
  rewrite <- (Z.land_ones (Z.land _ _)) by lia.
  rewrite <- Z.land_assoc, (Z.land_comm (_ mod _)), Z.land_assoc.
  rewrite Z.land_ones by lia.
  now rewrite (Z.mod_small v) by exact Hr.
Qed.

Lemma GetLowestSetBitMask_zero : GetLowestSetBitMask 0 = 0.
Proof.
  rewrite GetLowestSetBitMask_land.
  - apply Z.land_0_l.
  - split; [lia | apply pow2_pos; lia].
Qed.

Lemma GetLowestSetBitMask_lowest (v : Z) :
  in_range ptr_bits v -> 0 < v ->
  is_lowest_set_bit v (GetLowestSetBitMask v).
Proof.
  intros Hr Hv.
  destruct (lowest_bit_exists v Hv) as (i & Hi & Hset & Hlow).
  exists i. split; [exact Hi|]. split; [|split; assumption].
  rewrite GetLowestSetBitMask_land by exact Hr.
  rewrite <- Z.land_ones by lia.
  rewrite (Z.land_comm (- v)), Z.land_assoc, Z.land_ones by lia.
  rewrite (Z.mod_small v) by exact Hr.
  apply land_opp_lowest; assumption.
Qed.

Lemma GetLowestSetBitMask_submask (v : Z) :
  in_range ptr_bits v -> submask (GetLowestSetBitMask v) v.
Proof.
  intros Hr. unfold submask.
  rewrite GetLowestSetBitMask_land by exact Hr.
  rewrite (Z.land_comm v), <- Z.land_assoc, Z.land_diag. reflexivity.
Qed.

Lemma at_most_one_bit_pow2 (i : Z) : 0 <= i -> at_most_one_bit (2 ^ i).
Proof.
  intros Hi a b Ha Hb H1 H2.
  rewrite Z.pow2_bits_eqb in H1, H2 by lia.
  apply Z.eqb_eq in H1, H2. lia.
Qed.

Lemma at_most_one_bit_zero : at_most_one_bit 0.
Proof. intros a b _ _ H. rewrite Z.bits_0 in H. discriminate. Qed.

Lemma GetLowestSetBitMask_one_bit (v : Z) :
  in_range ptr_bits v -> at_most_one_bit (GetLowestSetBitMask v).
Proof.
  intros Hr. destruct (Z.eq_dec v 0) as [->|Hne].
  - rewrite GetLowestSetBitMask_zero. apply at_most_one_bit_zero.
  - destruct (GetLowestSetBitMask_lowest v Hr) as (i & Hi & -> & _).
    + destruct Hr; lia.
    + apply at_most_one_bit_pow2, Hi.
Qed.

End BitTrickFacts.

(** ** Letter case *)

Section LetterCase.

Import Str.

Lemma N_of_toupper (c : ascii) :
  N_of_ascii (toupper c) =
  (if (97 <=? N_of_ascii c) && (N_of_ascii c <=? 122)
   then N_of_ascii c - 32 else N_of_ascii c)%N.
Proof.
  unfold toupper. pose proof (N_ascii_bounded c) as Hb.
  destruct ((97 <=? N_of_ascii c) && (N_of_ascii c <=? 122))%N; [|reflexivity].
  apply N_ascii_embedding. lia.
Qed.

Lemma N_of_ascii_inj (c d : ascii) : N_of_ascii c = N_of_ascii d -> c = d.
Proof.
  intros H. rewrite <- (ascii_N_embedding c), <- (ascii_N_embedding d).
  now rewrite H.
Qed.

(** Two bytes are the same letter up to case exactly when [toupper] sends
    them to the same byte. *)
Lemma same_letter_toupper (c d : ascii) :
  same_letter c d <-> toupper c = toupper d.
Proof.
  unfold same_letter. cbv zeta. split.
  - intros H. apply N_of_ascii_inj. rewrite !N_of_toupper.
    destruct ((97 <=? N_of_ascii c) && (N_of_ascii c <=? 122))%N eqn:Ec;
      destruct ((97 <=? N_of_ascii d) && (N_of_ascii d <=? 122))%N eqn:Ed;
      rewrite ?andb_true_iff, ?andb_false_iff, ?N.leb_le, ?N.leb_gt in Ec;
      rewrite ?andb_true_iff, ?andb_false_iff, ?N.leb_le, ?N.leb_gt in Ed;
      lia.
  - intros H. apply (f_equal N_of_ascii) in H. rewrite !N_of_toupper in H.
    destruct ((97 <=? N_of_ascii c) && (N_of_ascii c <=? 122))%N eqn:Ec;
      destruct ((97 <=? N_of_ascii d) && (N_of_ascii d <=? 122))%N eqn:Ed;
      rewrite ?andb_true_iff, ?andb_false_iff, ?N.leb_le, ?N.leb_gt in Ec;
      rewrite ?andb_true_iff, ?andb_false_iff, ?N.leb_le, ?N.leb_gt in Ed;
      lia.
Qed.

Lemma iequals_case_variant (s t : string) :
  iequals s t = true <-> case_variant s t.
Proof.
  revert t. induction s as [|c s IH]; intros [|d t]; simpl.
  - split; [constructor | reflexivity].
  - split; [discriminate | inversion 1].
  - split; [discriminate | inversion 1].
  - destruct (Ascii.eqb (toupper c) (toupper d)) eqn:E.
    + apply Ascii.eqb_eq in E. rewrite IH. split.
      * intros H. constructor; [apply same_letter_toupper, E | exact H].
      * inversion 1; assumption.
    + apply Ascii.eqb_neq in E. split; [discriminate|].
      inversion 1; subst. exfalso. apply E, same_letter_toupper. assumption.
Qed.

Lemma case_variant_length (s t : string) :
  case_variant s t -> String.length s = String.length t.
Proof. induction 1; simpl; congruence. Qed.

(** [EqualsIgnoreCase] decides the case-variant relation. *)
Lemma EqualsIgnoreCase_case_variant (s t : string) :
  EqualsIgnoreCase s t = true <-> case_variant s t.
Proof.
  unfold EqualsIgnoreCase. rewrite andb_true_iff, Nat.eqb_eq.
  rewrite iequals_case_variant. split; [tauto|].
  intros H. split; [apply case_variant_length|]; exact H.
Qed.

Lemma case_variant_sym (s t : string) : case_variant s t -> case_variant t s.
Proof.
  induction 1; constructor; [|assumption].
  apply same_letter_toupper. symmetry. now apply same_letter_toupper.
Qed.

Lemma case_variant_trans (s t u : string) :
  case_variant s t -> case_variant t u -> case_variant s u.
Proof.
  intros H. revert u. induction H as [|c d s t Hcd Hst IH]; intros u Hu.
  - exact Hu.
  - inversion Hu as [|d' e t' u' Hde Htu]; subst.
    constructor; [|apply IH; assumption].
    apply same_letter_toupper. transitivity (toupper d);
      now apply same_letter_toupper.
Qed.

(** Case variants compare alike with every name. *)
Lemma EqualsIgnoreCase_variant (s s' name : string) :
  case_variant s s' -> EqualsIgnoreCase s name = EqualsIgnoreCase s' name.
Proof.
  intros H. apply eq_true_iff_eq. rewrite !EqualsIgnoreCase_case_variant.
  split; intros Hn.
  - eapply case_variant_trans; [apply case_variant_sym|]; eassumption.
  - eapply case_variant_trans; eassumption.
Qed.

End LetterCase.

(** ** What each operation does to the world *)

Ltac run_plugin :=
  unfold world_after, outcome, bind, ret, throw, try_catch,
    Logger.WriteLineFormatted, Logger.WriteLine,
    Win32.SetPriorityClass, Win32.SetProcessAffinityMask,
    Win32.GetProcessAffinityMask, Win32.THROW_IF_WIN32_BOOL_FALSE.

Section Effects.

Context {P : Platform}.

(** [ProcessCPUPriorityValue] never throws; it makes the calls of
    [priority_calls] and nothing else to the process. *)
Lemma ProcessCPUPriorityValue_effect (priority : string) (b : bool) (w : World) :
  let cls := cpuPriority_at_line_150 priority b in
  let w' := world_after (ProcessCPUPriorityValue priority b) w in
  outcome (ProcessCPUPriorityValue priority b) w = inl tt /\
  osCalls w' = (osCalls w ++ priority_calls priority b)%list /\
  priorityClass w' =
    (if cls =? 0 then priorityClass w else priority_after w cls) /\
  processAffinityMask w' = processAffinityMask w /\
  same_env w w'.
Proof.
  unfold priority_calls, cpuPriority_at_line_150, ProcessCPUPriorityValue,
    priority_after, same_env.
  run_plugin.
  destruct (EqualsIgnoreCase priority "High");
    [|destruct (EqualsIgnoreCase priority "AboveNormal");
      [|destruct (EqualsIgnoreCase priority "Normal");
        [|destruct (EqualsIgnoreCase priority "BelowNormal");
          [|destruct (EqualsIgnoreCase priority "Idle");
            [|destruct (EqualsIgnoreCase priority "Low");
              [destruct b|]]]]]];
    cbn [fst snd negb Z.eqb];
    match goal with
    | |- context [?c =? 0] => destruct (c =? 0); cbn [negb]
    | _ => idtac
    end;
    try match goal with
    | |- context [setPriorityFails w ?c] =>
        destruct (setPriorityFails w c); cbn
    end;
    cbn; rewrite ?app_nil_r; repeat split.
Qed.

Lemma bind_ok {A B : Type} (c : M A) (k : A -> M B) (w : World) (a : A) :
  outcome c w = inl a -> bind c k w = k a (world_after c w).
Proof.
  unfold outcome, world_after, bind. destruct (c w) as [[x|e] w']; simpl;
    congruence.
Qed.

Lemma try_catch_ok {A : Type} (body : M A) (catches : exn -> bool)
    (handler : exn -> M A) (w : World) (a : A) :
  outcome body w = inl a -> try_catch body catches handler w = body w.
Proof.
  unfold outcome, try_catch. destruct (body w) as [[x|e] w']; simpl;
    congruence.
Qed.

(** [ConfigureForSingleCPU] never throws, makes only affinity calls and
    writes one line to the log. *)
Lemma ConfigureForSingleCPU_effect (w : World) :
  let r := GetLowestSetBitMask (systemAffinityMask w) in
  let w' := world_after ConfigureForSingleCPU w in
  outcome ConfigureForSingleCPU w = inl tt /\
  osCalls w' =
    (osCalls w ++
     match getAffinityFails w with
     | None => [CallGetProcessAffinityMask; CallSetProcessAffinityMask r]
     | Some _ => [CallGetProcessAffinityMask]
     end)%list /\
  processAffinityMask w' =
    match getAffinityFails w, setAffinityFails w r with
    | None, None => r
    | _, _ => processAffinityMask w
    end /\
  logOutput w' =
    (logOutput w ++
     [match getAffinityFails w, setAffinityFails w r with
      | None, None => Line Info "Configured the game to use 1 CPU core."
      | Some err, _ | None, Some err =>
          Line Error
            (Str.format_s
               "An OS error occurred when configuring the game to use 1 CPU core: %s."
               err)
      end])%list /\
  priorityClass w' = priorityClass w /\
  same_env w w'.
Proof.
  unfold ConfigureForSingleCPU, same_env. run_plugin.
  cbn [fst snd Upd.add_call Upd.put_lastError].
  destruct (getAffinityFails w) as [err|] eqn:Hget;
    cbn -[GetLowestSetBitMask Str.format_s].
  - repeat split; assumption.
  - destruct (setAffinityFails w (GetLowestSetBitMask (systemAffinityMask w)))
      as [err|] eqn:Hset; cbn -[GetLowestSetBitMask Str.format_s];
      rewrite <- ?app_assoc; repeat split; assumption.
Qed.

Lemma SetCPUPriorityFromConfigFile_effect (w : World) :
  match configured_priority (settingsFile w) with
  | Some priority =>
      SetCPUPriorityFromConfigFile w = ProcessCPUPriorityValue priority false w
  | None =>
      exists msg,
        SetCPUPriorityFromConfigFile w =
        (inl tt,
         Upd.add_log
           (Line Error
              (Str.format_s "Error when setting the CPU priority: %s" msg)) w)
  end.
Proof.
  unfold configured_priority.
  assert (Hsplit : Ini.split_path EmptyString "CPUOptions.Priority"
                   = ["CPUOptions"; "Priority"]%string) by reflexivity.
  unfold SetCPUPriorityFromConfigFile.
  destruct (settingsFile w) as [|msg|tree] eqn:Hfile.
  - exists "Failed to open the settings file."%string.
    unfold try_catch, bind, Ini.ifstream_open. rewrite Hfile. reflexivity.
  - exists msg. unfold try_catch, bind, Ini.ifstream_open, Ini.read_ini.
    rewrite Hfile. cbn [negb ret]. rewrite Hfile. reflexivity.
  - assert (Hbody : forall k : string -> M unit,
               (stream <- Ini.ifstream_open ;;
                (if negb stream
                 then throw (std_runtime_error
                               "Failed to open the settings file.")
                 else ret tt) ;;
                tree <- Ini.read_ini ;;
                cpuPriority <- Ini.get tree "CPUOptions.Priority" ;;
                k cpuPriority) w =
               (cpuPriority <- Ini.get tree "CPUOptions.Priority" ;;
                k cpuPriority) w).
    { intros k. unfold bind at 1 2 3, Ini.ifstream_open, Ini.read_ini.
      rewrite Hfile. cbn [negb ret]. rewrite Hfile. reflexivity. }
    unfold try_catch. rewrite Hbody. unfold Ini.get. rewrite Hsplit.
    destruct (Ini.walk_path ["CPUOptions"; "Priority"]%string tree)
      as [[data children]|] eqn:Hwalk.
    + unfold bind, ret.
      pose proof (ProcessCPUPriorityValue_effect data false w) as [Hok _].
      unfold outcome in Hok.
      destruct (ProcessCPUPriorityValue data false w) as [[[]|e] w'];
        [reflexivity | discriminate].
    + exists "No such node (CPUOptions.Priority)"%string. reflexivity.
Qed.
Lemma SetCPUPriorityFromConfigFile_summary (w : World) :
  let w' := world_after SetCPUPriorityFromConfigFile w in
  outcome SetCPUPriorityFromConfigFile w = inl tt /\
  osCalls w' =
    (osCalls w ++
     match configured_priority (settingsFile w) with
     | Some priority => priority_calls priority false
     | None => []
     end)%list /\
  priorityClass w' =
    match configured_priority (settingsFile w) with
    | Some priority =>
        let cls := cpuPriority_at_line_150 priority false in
        if cls =? 0 then priorityClass w else priority_after w cls
    | None => priorityClass w
    end /\
  processAffinityMask w' = processAffinityMask w /\
  same_env w w'.
Proof.
  pose proof (SetCPUPriorityFromConfigFile_effect w) as H.
  unfold world_after, outcome.
  destruct (configured_priority (settingsFile w)) as [priority|].
  - rewrite H. apply ProcessCPUPriorityValue_effect.
  - destruct H as [msg ->]. cbn. rewrite app_nil_r. repeat split.
Qed.

(** The two steps of [OnStart]: the world after the affinity step and the
    world after the priority step; the result is always [true]. *)
Lemma OnStart_steps (w : World) :
  let w1 :=
    match switches w "CPUCount" with
    | Some v =>
        Upd.add_log
          (Line Info
             (Str.format_s
                "Skipped forcing the game to a single CPU because the command line contains -CPUCount:%s."
                (Str.c_str v))) w
    | None => world_after ConfigureForSingleCPU w
    end in
  let w2 :=
    match switches w "CPUPriority" with
    | Some v => world_after (ProcessCPUPriorityValue (Str.c_str v) true) w1
    | None => world_after SetCPUPriorityFromConfigFile w1
    end in
  same_env w w1 /\ OnStart w = (inl true, w2).
Proof.
  cbv zeta.
  assert (Hstep2 : forall w1 value,
             switches w1 = switches w ->
             (r <- Host.IsSwitchPresent "CPUPriority" value ;;
              (if fst r
               then ProcessCPUPriorityValue (Host.ToChar (snd r)) true
               else SetCPUPriorityFromConfigFile) ;;
              ret true) w1 =
             (inl true,
              match switches w "CPUPriority" with
              | Some v =>
                  world_after (ProcessCPUPriorityValue (Str.c_str v) true) w1
              | None => world_after SetCPUPriorityFromConfigFile w1
              end)).
  { intros w1 value Hsw. unfold bind at 1, Host.IsSwitchPresent, Host.ToChar.
    rewrite Hsw.
    destruct (switches w "CPUPriority") as [v|]; cbn [fst snd].
    - pose proof (ProcessCPUPriorityValue_effect (Str.c_str v) true w1)
        as [Hok _].
      rewrite (bind_ok _ _ _ tt Hok). reflexivity.
    - pose proof (SetCPUPriorityFromConfigFile_summary w1) as [Hok _].
      rewrite (bind_ok _ _ _ tt Hok). reflexivity. }
  unfold OnStart. unfold bind at 1, Host.IsSwitchPresent at 1, Host.ToChar.
  destruct (switches w "CPUCount") as [v|]; cbn [fst snd].
  - split; [repeat split|].
    unfold bind at 1, Logger.WriteLineFormatted, Logger.WriteLine.
    apply Hstep2. reflexivity.
  - pose proof (ConfigureForSingleCPU_effect w)
      as (Hok & _ & _ & _ & _ & Henv).
    split; [exact Henv|].
    rewrite (bind_ok _ _ _ tt Hok). apply Hstep2. apply Henv.
Qed.

End Effects.

(** ** The properties of the specification *)

Section Properties.

Context {P : Platform}.

Lemma neg_twos_complement_opp (w v : Z) :
  neg_twos_complement w v = (- v) mod 2 ^ w.
Proof.
  unfold neg_twos_complement.
  replace (2 ^ w - v) with (- v + 1 * 2 ^ w) by ring.
  apply Z_mod_plus_full.
Qed.

(** C1.  When the system affinity mask [M] reported by the operating system
    has a bit set, [ConfigureForSingleCPU] asks for the affinity mask that
    is the lowest set bit of [M]: a single bit, a submask of [M].  That mask
    is the process affinity mask afterwards when the operating system
    accepts the request. *)
Theorem C1_single_cpu_lowest_set_bit (w : World) :
  0 < ptr_bits ->
  getAffinityFails w = None ->
  MachineInt.in_range ptr_bits (systemAffinityMask w) ->
  0 < systemAffinityMask w ->
  let M := systemAffinityMask w in
  let w' := world_after ConfigureForSingleCPU w in
  exists r,
    is_lowest_set_bit M r /\ submask r M /\ at_most_one_bit r /\
    osCalls w' =
      (osCalls w ++
       [CallGetProcessAffinityMask; CallSetProcessAffinityMask r])%list /\
    (setAffinityFails w r = None -> processAffinityMask w' = r).
Proof.
  intros Hbits Hget Hrange Hpos M w'.
  exists (GetLowestSetBitMask M).
  pose proof (ConfigureForSingleCPU_effect w) as (_ & Hcalls & Hmask & _).
  rewrite Hget in Hcalls, Hmask.
  split; [apply GetLowestSetBitMask_lowest; assumption|].
  split; [apply GetLowestSetBitMask_submask; assumption|].
  split; [apply GetLowestSetBitMask_one_bit; assumption|].
  split; [exact Hcalls|].
  intros Hset. subst w' M. rewrite Hmask, Hset. reflexivity.
Qed.

(** C10.  [GetLowestSetBitMask v] is [v & -v] with the negation taken in
    two's complement; the result has at most one bit set and is a submask of
    [v]; it is 0 for [v = 0], so that a system affinity mask of 0 leads to
    the call [SetProcessAffinityMask(0)]. *)
Theorem C10_lowest_set_bit_mask_of_zero (v : Z) :
  0 < ptr_bits ->
  MachineInt.in_range ptr_bits v ->
  GetLowestSetBitMask v = Z.land v (neg_twos_complement ptr_bits v) /\
  at_most_one_bit (GetLowestSetBitMask v) /\
  submask (GetLowestSetBitMask v) v /\
  GetLowestSetBitMask 0 = 0 /\
  forall w : World,
    getAffinityFails w = None -> systemAffinityMask w = 0 ->
    osCalls (world_after ConfigureForSingleCPU w) =
    (osCalls w ++
     [CallGetProcessAffinityMask; CallSetProcessAffinityMask 0])%list.
Proof.
  intros Hbits Hrange.
  split; [rewrite neg_twos_complement_opp;
          apply GetLowestSetBitMask_land; assumption|].
  split; [apply GetLowestSetBitMask_one_bit; assumption|].
  split; [apply GetLowestSetBitMask_submask; assumption|].
  split; [apply GetLowestSetBitMask_zero; assumption|].
  intros w Hget Hzero.
  pose proof (ConfigureForSingleCPU_effect w) as (_ & Hcalls & _).
  rewrite Hget, Hzero, GetLowestSetBitMask_zero in Hcalls by assumption.
  exact Hcalls.
Qed.

(** C2.  The value "Low": from the command line it leads to no call to the
    operating system and to one informational line; from the settings file
    it leads to [SetPriorityClass(IDLE_PRIORITY_CLASS)]. *)
Theorem C2_low_from_command_line_and_file (w : World) :
  IDLE_PRIORITY_CLASS <> 0 ->
  (let w' := world_after (ProcessCPUPriorityValue "Low" true) w in
   outcome (ProcessCPUPriorityValue "Low" true) w = inl tt /\
   osCalls w' = osCalls w /\
   priorityClass w' = priorityClass w /\
   logOutput w' =
     (logOutput w ++ [Line Info "SC4 set its CPU priority to Low."])%list) /\
  (let w' := world_after (ProcessCPUPriorityValue "Low" false) w in
   outcome (ProcessCPUPriorityValue "Low" false) w = inl tt /\
   osCalls w' =
     (osCalls w ++ [CallSetPriorityClass IDLE_PRIORITY_CLASS])%list /\
   (setPriorityFails w IDLE_PRIORITY_CLASS = None ->
    priorityClass w' = IDLE_PRIORITY_CLASS /\
    logOutput w' =
      (logOutput w ++ [Line Info "Set the game's CPU priority to Low."])%list)).
Proof.
  intros Hidle. apply Z.eqb_neq in Hidle. split.
  - unfold ProcessCPUPriorityValue. run_plugin. cbn. repeat split.
  - unfold ProcessCPUPriorityValue. run_plugin.
    cbn -[Z.eqb]. rewrite Hidle. cbn.
    destruct (setPriorityFails w IDLE_PRIORITY_CLASS) as [err|]; cbn.
    + repeat split; discriminate.
    + repeat split.
Qed.

(** C4.  [OnStart] returns [true] in every world: whatever the command
    line, the settings file and the answers of the operating system, no
    exception leaves it. *)
Theorem C4_OnStart_returns_true (w : World) :
  outcome OnStart w = inl true.
Proof.
  unfold outcome. destruct (OnStart_steps w) as [_ ->]. reflexivity.
Qed.

Lemma count_priority_calls_app (l1 l2 : list OsCall) :
  count_priority_calls (l1 ++ l2) =
  (count_priority_calls l1 + count_priority_calls l2)%nat.
Proof.
  unfold count_priority_calls. now rewrite filter_app, length_app.
Qed.

Lemma count_priority_calls_priority_calls (priority : string) (b : bool) :
  (count_priority_calls (priority_calls priority b) <= 1)%nat.
Proof.
  unfold priority_calls, count_priority_calls. cbv zeta.
  destruct (cpuPriority_at_line_150 priority b =? 0); cbn; lia.
Qed.

(** C3.  One run of [OnStart] makes at most one call of
    [SetPriorityClass]. *)
Theorem C3_at_most_one_priority_call (w : World) :
  exists new,
    osCalls (world_after OnStart w) = (osCalls w ++ new)%list /\
    (count_priority_calls new <= 1)%nat.
Proof.
  unfold world_after at 1. destruct (OnStart_steps w) as [Henv ->].
  cbn [snd].
  set (w1 := match switches w "CPUCount" with
             | Some _ => _ | None => _ end) in *.
  assert (H1 : exists l1, osCalls w1 = (osCalls w ++ l1)%list /\
                          count_priority_calls l1 = 0%nat).
  { subst w1. destruct (switches w "CPUCount") as [v|].
    - exists []. cbn. now rewrite app_nil_r.
    - pose proof (ConfigureForSingleCPU_effect w) as (_ & Hcalls & _).
      eexists. split; [exact Hcalls|].
      destruct (getAffinityFails w); reflexivity. }
  destruct H1 as (l1 & Hl1 & Hc1).
  assert (H2 : exists l2,
             osCalls
               match switches w "CPUPriority" with
               | Some v =>
                   world_after (ProcessCPUPriorityValue (Str.c_str v) true) w1
               | None => world_after SetCPUPriorityFromConfigFile w1
               end = (osCalls w1 ++ l2)%list /\
             (count_priority_calls l2 <= 1)%nat).
  { destruct (switches w "CPUPriority") as [v|].
    - pose proof (ProcessCPUPriorityValue_effect (Str.c_str v) true w1)
        as (_ & Hcalls & _).
      eexists. split; [exact Hcalls|].
      apply count_priority_calls_priority_calls.
    - pose proof (SetCPUPriorityFromConfigFile_summary w1)
        as (_ & Hcalls & _).
      eexists. split; [exact Hcalls|].
      destruct (configured_priority (settingsFile w1)).
      + apply count_priority_calls_priority_calls.
      + cbn. lia. }
  destruct H2 as (l2 & Hl2 & Hc2).
  exists (l1 ++ l2)%list. split.
  - rewrite Hl2, Hl1, app_assoc. reflexivity.
  - rewrite count_priority_calls_app. lia.
Qed.

Lemma cpuPriority_variant (s s' : string) (b : bool) :
  case_variant s s' ->
  cpuPriority_at_line_150 s b = cpuPriority_at_line_150 s' b.
Proof.
  intros H. unfold cpuPriority_at_line_150.
  now rewrite !(EqualsIgnoreCase_variant s s' _ H).
Qed.

(** C6.  Case variants of a value resolve to the same priority class and
    lead to the same calls to the operating system; "high", "HIGH" and
    "High" all resolve to [HIGH_PRIORITY_CLASS]. *)
Theorem C6_priority_names_ignore_case (s s' : string) (b : bool) (w : World) :
  case_variant s s' ->
  cpuPriority_at_line_150 s b = cpuPriority_at_line_150 s' b /\
  osCalls (world_after (ProcessCPUPriorityValue s b) w) =
  osCalls (world_after (ProcessCPUPriorityValue s' b) w) /\
  priorityClass (world_after (ProcessCPUPriorityValue s b) w) =
  priorityClass (world_after (ProcessCPUPriorityValue s' b) w) /\
  forall v, In v ["high"; "HIGH"; "High"]%string ->
    cpuPriority_at_line_150 v b = HIGH_PRIORITY_CLASS /\
    osCalls (world_after (ProcessCPUPriorityValue v b) w) =
    (osCalls w ++
     if HIGH_PRIORITY_CLASS =? 0 then []
     else [CallSetPriorityClass HIGH_PRIORITY_CLASS])%list.
Proof.
  intros H.
  pose proof (cpuPriority_variant s s' b H) as Hcls.
  pose proof (ProcessCPUPriorityValue_effect s b w) as (_ & Hc & Hp & _).
  pose proof (ProcessCPUPriorityValue_effect s' b w) as (_ & Hc' & Hp' & _).
  split; [exact Hcls|]. split; [|split].
  - rewrite Hc, Hc'. unfold priority_calls. now rewrite Hcls.
  - rewrite Hp, Hp', Hcls. reflexivity.
  - intros v Hv.
    assert (Hhigh : cpuPriority_at_line_150 v b = HIGH_PRIORITY_CLASS).
    { destruct Hv as [<-|[<-|[<-|[]]]]; reflexivity. }
    split; [exact Hhigh|].
    pose proof (ProcessCPUPriorityValue_effect v b w) as (_ & Hcv & _).
    rewrite Hcv. unfold priority_calls. now rewrite Hhigh.
Qed.

Lemma append_empty_r (s : string) : (s ++ "")%string = s.
Proof. induction s; simpl; congruence. Qed.

Lemma c_str_nul_free (s : string) : Str.nul_free s = true -> Str.c_str s = s.
Proof.
  induction s as [|c s IH]; simpl; [reflexivity|].
  destruct (Ascii.eqb c zero); simpl; [discriminate|].
  intros H. now rewrite IH.
Qed.

Lemma chars_append (a b : string) :
  list_ascii_of_string (a ++ b) =
  (list_ascii_of_string a ++ list_ascii_of_string b)%list.
Proof. induction a; simpl; congruence. Qed.

(** Every byte of a part of a line is a byte of the line. *)
Lemma contains_chars (line part : string) (c : ascii) :
  Str.contains line part ->
  In c (list_ascii_of_string part) -> In c (list_ascii_of_string line).
Proof.
  intros (before & after & ->) Hc.
  rewrite !chars_append, !in_app_iff. tauto.
Qed.

Lemma unrecognized_compares_false (s : string) :
  (forall name, In name recognized_names -> ~ case_variant s name) ->
  forall name, In name recognized_names -> EqualsIgnoreCase s name = false.
Proof.
  intros H name Hin. apply not_true_iff_false.
  rewrite EqualsIgnoreCase_case_variant. now apply H.
Qed.

(** C7, as the code has it.  A value that is no case variant of the six
    names leads to no call to the operating system and to one error line,
    and [ProcessCPUPriorityValue] returns normally, for both values of the
    flag.  The line holds the value as a C string, that is up to its first
    byte 0: the whole value when no byte of it is 0. *)
Theorem C7_unrecognized_value_logged_as_c_string
    (s : string) (b : bool) (w : World) :
  (forall name, In name recognized_names -> ~ case_variant s name) ->
  let w' := world_after (ProcessCPUPriorityValue s b) w in
  let text := ("Unsupported CPU priority value: " ++ Str.c_str s)%string in
  outcome (ProcessCPUPriorityValue s b) w = inl tt /\
  osCalls w' = osCalls w /\
  priorityClass w' = priorityClass w /\
  logOutput w' = (logOutput w ++ [Line Error text])%list /\
  Str.contains text (Str.c_str s) /\
  (Str.nul_free s = true -> Str.contains text s).
Proof.
  intros H w' text.
  pose proof (unrecognized_compares_false s H) as Hf.
  assert (Hrun : ProcessCPUPriorityValue s b w =
                 (inl tt, Upd.add_log (Line Error text) w)).
  { unfold ProcessCPUPriorityValue.
    rewrite !Hf by (simpl; tauto).
    run_plugin. cbn. subst text. now rewrite append_empty_r. }
  subst w'. unfold world_after, outcome. rewrite Hrun. cbn.
  repeat split.
  - exists "Unsupported CPU priority value: "%string, ""%string.
    subst text. now rewrite append_empty_r.
  - intros Hnul. exists "Unsupported CPU priority value: "%string, ""%string.
    subst text. now rewrite append_empty_r, c_str_nul_free.
Qed.

Lemma ProcessCPUPriorityValue_log (priority : string) (b : bool) (w : World) :
  exists lines,
    logOutput (world_after (ProcessCPUPriorityValue priority b) w) =
    (logOutput w ++ lines)%list.
Proof.
  unfold ProcessCPUPriorityValue. run_plugin.
  destruct (EqualsIgnoreCase priority "High");
    [|destruct (EqualsIgnoreCase priority "AboveNormal");
      [|destruct (EqualsIgnoreCase priority "Normal");
        [|destruct (EqualsIgnoreCase priority "BelowNormal");
          [|destruct (EqualsIgnoreCase priority "Idle");
            [|destruct (EqualsIgnoreCase priority "Low");
              [destruct b|]]]]]];
    cbn [fst snd negb Z.eqb];
    match goal with
    | |- context [?c =? 0] => destruct (c =? 0); cbn [negb]
    | _ => idtac
    end;
    try match goal with
    | |- context [setPriorityFails w ?c] =>
        destruct (setPriorityFails w c)
    end;
    cbn -[Str.format_s];
    solve [ exists []; now rewrite app_nil_r
          | eexists; reflexivity
          | rewrite <- app_assoc; eexists; reflexivity ].
Qed.

Lemma SetCPUPriorityFromConfigFile_log (w : World) :
  exists lines,
    logOutput (world_after SetCPUPriorityFromConfigFile w) =
    (logOutput w ++ lines)%list.
Proof.
  pose proof (SetCPUPriorityFromConfigFile_effect w) as H.
  unfold world_after.
  destruct (configured_priority (settingsFile w)) as [priority|].
  - rewrite H. apply ProcessCPUPriorityValue_log.
  - destruct H as [msg ->]. cbn -[Str.format_s]. eexists. reflexivity.
Qed.

(** C8.  With the CPUCount switch on the command line, [OnStart] makes no
    affinity call and leaves the process affinity mask alone; the value of
    the switch appears in an informational line and has no influence on the
    calls made or on the state of the process. *)
Theorem C8_cpu_count_switch_skips_affinity (w : World) (v : string) :
  switches w "CPUCount" = Some v ->
  let w' := world_after OnStart w in
  processAffinityMask w' = processAffinityMask w /\
  (exists new, osCalls w' = (osCalls w ++ new)%list /\
               filter is_affinity_call new = []) /\
  (exists rest,
      logOutput w' =
      (logOutput w ++
       Line Info
         (Str.format_s
            "Skipped forcing the game to a single CPU because the command line contains -CPUCount:%s."
            (Str.c_str v)) :: rest)%list) /\
  forall v',
    let w'' := world_after OnStart (with_switch "CPUCount" v' w) in
    osCalls w'' = osCalls w' /\
    processAffinityMask w'' = processAffinityMask w' /\
    priorityClass w'' = priorityClass w'.
Proof.
  intros Hcount w'.
  assert (Hstep : forall w0 v0,
             switches w0 "CPUCount" = Some v0 ->
             let line :=
               Line Info
                 (Str.format_s
                    "Skipped forcing the game to a single CPU because the command line contains -CPUCount:%s."
                    (Str.c_str v0)) in
             let r := world_after OnStart w0 in
             processAffinityMask r = processAffinityMask w0 /\
             osCalls r =
               (osCalls w0 ++
                match switches w0 "CPUPriority" with
                | Some p => priority_calls (Str.c_str p) true
                | None =>
                    match configured_priority (settingsFile w0) with
                    | Some p => priority_calls p false
                    | None => []
                    end
                end)%list /\
             priorityClass r =
               match switches w0 "CPUPriority" with
               | Some p =>
                   let cls := cpuPriority_at_line_150 (Str.c_str p) true in
                   if cls =? 0 then priorityClass w0
                   else priority_after w0 cls
               | None =>
                   match configured_priority (settingsFile w0) with
                   | Some p =>
                       let cls := cpuPriority_at_line_150 p false in
                       if cls =? 0 then priorityClass w0
                       else priority_after w0 cls
                   | None => priorityClass w0
                   end
               end /\
             exists rest, logOutput r = (logOutput w0 ++ line :: rest)%list).
  { intros w0 v0 H0 line r. subst r. unfold world_after at 1 2 3 4.
    destruct (OnStart_steps w0) as [_ ->]. rewrite H0. cbn [snd].
    fold line. set (w1 := Upd.add_log line w0).
    destruct (switches w0 "CPUPriority") as [p|].
    - pose proof (ProcessCPUPriorityValue_effect (Str.c_str p) true w1)
        as (_ & Hc & Hp & Hm & _).
      destruct (ProcessCPUPriorityValue_log (Str.c_str p) true w1)
        as [lines Hl].
      rewrite Hc, Hp, Hm, Hl. subst w1. cbn -[line].
      repeat split. exists lines. now rewrite <- app_assoc.
    - pose proof (SetCPUPriorityFromConfigFile_summary w1)
        as (_ & Hc & Hp & Hm & _).
      destruct (SetCPUPriorityFromConfigFile_log w1) as [lines Hl].
      rewrite Hc, Hp, Hm, Hl. subst w1. cbn -[line].
      repeat split. exists lines. now rewrite <- app_assoc. }
  destruct (Hstep w v Hcount) as (Hm & Hc & Hp & Hl).
  split; [exact Hm|]. split; [|split; [exact Hl|]].
  - eexists. split; [exact Hc|].
    unfold priority_calls.
    destruct (switches w "CPUPriority") as [p|];
      [|destruct (configured_priority (settingsFile w)) as [p|]];
      cbv zeta; try reflexivity;
      match goal with
      | |- context [?c =? 0] => destruct (c =? 0); reflexivity
      end.
  - intros v' w''.
    assert (H' : switches (with_switch "CPUCount" v' w) "CPUCount" = Some v')
      by reflexivity.
    destruct (Hstep _ v' H') as (Hm' & Hc' & Hp' & _).
    subst w' w''. rewrite Hm, Hc, Hp, Hm', Hc', Hp'. cbn. repeat split.
Qed.

(** C9.  When the settings file cannot be opened, cannot be parsed or has
    no [CPUOptions.Priority] key, [SetCPUPriorityFromConfigFile] returns
    normally, makes no call to the operating system, leaves the process as it
    is and writes one error line; [OnStart] without a CPUPriority switch then
    leaves the priority class alone. *)
Theorem C9_settings_file_without_priority (w : World) :
  settingsFile w = CannotOpen \/
  (exists msg, settingsFile w = Unparseable msg) \/
  (exists tree, settingsFile w = Parsed tree /\
                Ini.walk_path ["CPUOptions"; "Priority"]%string tree = None) ->
  let w' := world_after SetCPUPriorityFromConfigFile w in
  outcome SetCPUPriorityFromConfigFile w = inl tt /\
  osCalls w' = osCalls w /\
  priorityClass w' = priorityClass w /\
  processAffinityMask w' = processAffinityMask w /\
  (exists msg,
      logOutput w' =
      (logOutput w ++
       [Line Error
          (Str.format_s "Error when setting the CPU priority: %s" msg)])%list)
  /\
  (switches w "CPUPriority" = None ->
   outcome OnStart w = inl true /\
   priorityClass (world_after OnStart w) = priorityClass w /\
   count_priority_calls (osCalls (world_after OnStart w)) =
   count_priority_calls (osCalls w)).
Proof.
  intros Hfile w'.
  assert (Hnone : configured_priority (settingsFile w) = None).
  { destruct Hfile as [->|[[msg ->]|(tree & -> & Hwalk)]];
      unfold configured_priority; [reflexivity | reflexivity |].
    now rewrite Hwalk. }
  pose proof (SetCPUPriorityFromConfigFile_summary w)
    as (Hok & Hc & Hp & Hm & _).
  rewrite Hnone in Hc, Hp. rewrite app_nil_r in Hc.
  split; [exact Hok|]. split; [exact Hc|]. split; [exact Hp|].
  split; [exact Hm|]. split.
  - pose proof (SetCPUPriorityFromConfigFile_effect w) as H.
    rewrite Hnone in H. destruct H as [msg H]. exists msg.
    subst w'. unfold world_after. rewrite H. reflexivity.
  - intros Hswitch. unfold outcome, world_after.
    destruct (OnStart_steps w) as [Henv ->]. rewrite Hswitch. cbn [fst snd].
    split; [reflexivity|].
    set (w1 := match switches w "CPUCount" with
               | Some _ => _ | None => _ end) in *.
    assert (H1 : priorityClass w1 = priorityClass w /\
                 count_priority_calls (osCalls w1) =
                 count_priority_calls (osCalls w)).
    { subst w1. destruct (switches w "CPUCount") as [v|].
      - split; reflexivity.
      - pose proof (ConfigureForSingleCPU_effect w)
          as (_ & Hc1 & _ & _ & Hp1 & _).
        split; [exact Hp1|]. rewrite Hc1, count_priority_calls_app.
        destruct (getAffinityFails w); cbn; lia. }
    pose proof (SetCPUPriorityFromConfigFile_summary w1)
      as (_ & Hc2 & Hp2 & _).
    destruct Henv as (_ & Hsf & _). rewrite Hsf, Hnone in Hc2, Hp2.
    rewrite app_nil_r in Hc2. rewrite Hc2, Hp2. exact H1.
Qed.

Lemma ctor_effect (w : World) :
  let w0 := world_after CPUOptionsDllDirector_ctor w in
  outcome CPUOptionsDllDirector_ctor w = inl tt /\
  same_env w w0 /\
  processAffinityMask w0 = processAffinityMask w /\
  priorityClass w0 = priorityClass w /\
  osCalls w0 = osCalls w /\
  logOutput w0 =
    (logOutput w ++ [Header ("SC4CPUOptions v" ++ PLUGIN_VERSION_STR)])%list.
Proof.
  unfold CPUOptionsDllDirector_ctor, world_after, outcome, bind,
    Logger.Init, Logger.WriteLogFileHeader, same_env.
  destruct (loggerLevel w); cbn -[append]; repeat split.
Qed.

(** C5.  End to end: no CPUCount and no CPUPriority switch, a settings file
    whose [CPUOptions.Priority] is "AboveNormal", and an operating system
    that accepts the calls.  After the constructor and [OnStart] the
    process affinity mask is the lowest set bit of the system mask, the
    priority class is [ABOVE_NORMAL_PRIORITY_CLASS], and the log has gained
    its header and two informational lines. *)
Theorem C5_end_to_end_above_normal (w : World) (tree : ptree)
    (children : list (string * ptree)) :
  0 < ptr_bits ->
  ABOVE_NORMAL_PRIORITY_CLASS <> 0 ->
  switches w "CPUCount" = None ->
  switches w "CPUPriority" = None ->
  settingsFile w = Parsed tree ->
  Ini.walk_path ["CPUOptions"; "Priority"]%string tree =
    Some (Node "AboveNormal" children) ->
  MachineInt.in_range ptr_bits (systemAffinityMask w) ->
  0 < systemAffinityMask w ->
  getAffinityFails w = None ->
  setAffinityFails w (GetLowestSetBitMask (systemAffinityMask w)) = None ->
  setPriorityFails w ABOVE_NORMAL_PRIORITY_CLASS = None ->
  let w0 := world_after CPUOptionsDllDirector_ctor w in
  let w' := world_after OnStart w0 in
  outcome OnStart w0 = inl true /\
  is_lowest_set_bit (systemAffinityMask w) (processAffinityMask w') /\
  submask (processAffinityMask w') (systemAffinityMask w) /\
  priorityClass w' = ABOVE_NORMAL_PRIORITY_CLASS /\
  osCalls w' =
    (osCalls w ++
     [CallGetProcessAffinityMask;
      CallSetProcessAffinityMask (processAffinityMask w');
      CallSetPriorityClass ABOVE_NORMAL_PRIORITY_CLASS])%list /\
  logOutput w' =
    (logOutput w ++
     [Header ("SC4CPUOptions v" ++ PLUGIN_VERSION_STR);
      Line Info "Configured the game to use 1 CPU core.";
      Line Info "Set the game's CPU priority to AboveNormal."])%list.
Proof.
  intros Hbits Habove Hcount Hprio Hfile Hwalk Hrange Hpos Hget Hset Hsetp
    w0 w'.
  pose proof (ctor_effect w)
    as (_ & (E1 & E2 & E3 & E4 & E5 & E6) & Hm0 & Hp0 & Hc0 & Hl0).
  fold w0 in E1, E2, E3, E4, E5, E6, Hm0, Hp0, Hc0, Hl0.
  subst w'. unfold outcome, world_after at 1 2 3 4 5 6.
  destruct (OnStart_steps w0) as [_ ->]. cbn [fst snd].
  split; [reflexivity|].
  rewrite E1, Hcount, Hprio.
  pose proof (ConfigureForSingleCPU_effect w0)
    as (_ & Hc1 & Hm1 & Hl1 & Hp1 & (F1 & F2 & F3 & F4 & F5 & F6)).
  set (w1 := world_after ConfigureForSingleCPU w0) in *.
  rewrite E3, E6, Hget in Hc1.
  rewrite E3, E4, E6, Hget, Hset in Hm1.
  rewrite E3, E4, E6, Hget, Hset in Hl1.
  pose proof (SetCPUPriorityFromConfigFile_effect w1) as Hcfg.
  rewrite F2, E2, Hfile in Hcfg. unfold configured_priority in Hcfg.
  rewrite Hwalk in Hcfg. unfold world_after. rewrite Hcfg.
  assert (Hrun : ProcessCPUPriorityValue "AboveNormal" false w1 =
                 (inl tt,
                  Upd.add_log
                    (Line Info "Set the game's CPU priority to AboveNormal.")
                    (Upd.put_priorityClass ABOVE_NORMAL_PRIORITY_CLASS
                       (Upd.add_call
                          (CallSetPriorityClass ABOVE_NORMAL_PRIORITY_CLASS)
                          w1)))).
  { unfold ProcessCPUPriorityValue. run_plugin. cbn -[Z.eqb].
    apply Z.eqb_neq in Habove. rewrite Habove. cbn.
    rewrite F5, E5, Hsetp. reflexivity. }
  rewrite Hrun. cbn. rewrite Hm1, Hc1, Hl1, Hc0, Hl0, <- !app_assoc.
  split; [apply GetLowestSetBitMask_lowest; assumption|].
  split; [apply GetLowestSetBitMask_submask; assumption|].
  repeat split.
Qed.

End Properties.

(** ** The properties on concrete worlds

    Each property that has premises is applied to a concrete input. *)

Lemma C1_on_mask_10 :
  exists r,
    is_lowest_set_bit 10 r /\ submask r 10 /\ at_most_one_bit r /\
    osCalls (world_after (@ConfigureForSingleCPU Win32_x86) example_world) =
      [CallGetProcessAffinityMask; CallSetProcessAffinityMask r] /\
    (setAffinityFails example_world r = None ->
     processAffinityMask
       (world_after (@ConfigureForSingleCPU Win32_x86) example_world) = r).
Proof.
  apply (@C1_single_cpu_lowest_set_bit Win32_x86 example_world).
  - reflexivity.
  - reflexivity.
  - unfold MachineInt.in_range. simpl. lia.
  - reflexivity.
Defined.

Lemma C10_on_mask_12 :
  @GetLowestSetBitMask Win32_x64 12 = Z.land 12 (neg_twos_complement 64 12) /\
  at_most_one_bit (@GetLowestSetBitMask Win32_x64 12) /\
  submask (@GetLowestSetBitMask Win32_x64 12) 12 /\
  @GetLowestSetBitMask Win32_x64 0 = 0 /\
  forall w : World,
    getAffinityFails w = None -> systemAffinityMask w = 0 ->
    osCalls (world_after (@ConfigureForSingleCPU Win32_x64) w) =
    (osCalls w ++
     [CallGetProcessAffinityMask; CallSetProcessAffinityMask 0])%list.
Proof.
  apply (@C10_lowest_set_bit_mask_of_zero Win32_x64 12).
  - reflexivity.
  - unfold MachineInt.in_range. simpl. lia.
Defined.

Lemma C2_on_example_world :
  (let w' :=
     world_after (@ProcessCPUPriorityValue Win32_x86 "Low" true)
       example_world in
   outcome (@ProcessCPUPriorityValue Win32_x86 "Low" true) example_world
     = inl tt /\
   osCalls w' = osCalls example_world /\
   priorityClass w' = priorityClass example_world /\
   logOutput w' =
     (logOutput example_world ++
      [Line Info "SC4 set its CPU priority to Low."])%list) /\
  (let w' :=
     world_after (@ProcessCPUPriorityValue Win32_x86 "Low" false)
       example_world in
   outcome (@ProcessCPUPriorityValue Win32_x86 "Low" false) example_world
     = inl tt /\
   osCalls w' =
     (osCalls example_world ++ [CallSetPriorityClass 0x40])%list /\
   (setPriorityFails example_world 0x40 = None ->
    priorityClass w' = 0x40 /\
    logOutput w' =
      (logOutput example_world ++
       [Line Info "Set the game's CPU priority to Low."])%list)).
Proof.
  apply (@C2_low_from_command_line_and_file Win32_x86 example_world).
  simpl. lia.
Defined.

Lemma C6_on_high :
  @cpuPriority_at_line_150 Win32_x86 "high" true = 0x80 /\
  @cpuPriority_at_line_150 Win32_x86 "HIGH" true = 0x80.
Proof.
  assert (Hcv : case_variant "high" "HIGH")
    by (apply EqualsIgnoreCase_case_variant; reflexivity).
  destruct (@C6_priority_names_ignore_case Win32_x86 "high" "HIGH" true
              example_world Hcv) as (Hsame & _ & _ & Hhigh).
  split.
  - apply (Hhigh "high"%string). simpl. tauto.
  - rewrite <- Hsame. apply (Hhigh "high"%string). simpl. tauto.
Defined.

Lemma bogus_unrecognized :
  forall name, In name recognized_names -> ~ case_variant "bogus" name.
Proof.
  intros name Hin Hcv. apply EqualsIgnoreCase_case_variant in Hcv.
  simpl in Hin.
  repeat (destruct Hin as [<-|Hin]; [discriminate Hcv|]).
  contradiction.
Qed.

Lemma C7_on_bogus :
  logOutput
    (world_after (@ProcessCPUPriorityValue Win32_x86 "bogus" true)
       example_world) =
  [Line Error "Unsupported CPU priority value: bogus"] /\
  Str.contains "Unsupported CPU priority value: bogus" "bogus".
Proof.
  destruct (@C7_unrecognized_value_logged_as_c_string Win32_x86 "bogus" true
              example_world bogus_unrecognized)
    as (_ & _ & _ & Hlog & _ & Hcontains).
  split.
  - exact Hlog.
  - apply Hcontains. reflexivity.
Defined.

Lemma C8_on_cpu_count_4 :
  let w := with_switch "CPUCount" "4" example_world in
  let w' := world_after (@OnStart Win32_x86) w in
  processAffinityMask w' = 10 /\
  (exists new, osCalls w' = new /\ filter is_affinity_call new = []).
Proof.
  intros w w'.
  destruct (@C8_cpu_count_switch_skips_affinity Win32_x86 w "4" eq_refl)
    as (Hmask & Hcalls & _).
  split; [exact Hmask | exact Hcalls].
Defined.

Lemma C9_on_missing_file :
  outcome (@SetCPUPriorityFromConfigFile Win32_x86) world_without_settings
    = inl tt /\
  osCalls (world_after (@SetCPUPriorityFromConfigFile Win32_x86)
             world_without_settings) = [].
Proof.
  destruct (@C9_settings_file_without_priority Win32_x86
              world_without_settings (or_introl eq_refl))
    as (Hok & Hcalls & _).
  split; [exact Hok | exact Hcalls].
Defined.

Lemma C5_on_example_world :
  let w0 := world_after (@CPUOptionsDllDirector_ctor Win32_x86) example_world in
  let w' := world_after (@OnStart Win32_x86) w0 in
  outcome (@OnStart Win32_x86) w0 = inl true /\
  is_lowest_set_bit 10 (processAffinityMask w') /\
  submask (processAffinityMask w') 10 /\
  priorityClass w' = 0x8000 /\
  osCalls w' =
    [CallGetProcessAffinityMask;
     CallSetProcessAffinityMask (processAffinityMask w');
     CallSetPriorityClass 0x8000] /\
  logOutput w' =
    [Header "SC4CPUOptions v1.0.0";
     Line Info "Configured the game to use 1 CPU core.";
     Line Info "Set the game's CPU priority to AboveNormal."].
Proof.
  apply (@C5_end_to_end_above_normal Win32_x86 example_world
           (ini_with_priority "AboveNormal") []).
  - reflexivity.
  - simpl. lia.
  - reflexivity.
  - reflexivity.
  - reflexivity.
  - reflexivity.
  - unfold MachineInt.in_range. simpl. lia.
  - reflexivity.
  - reflexivity.
  - reflexivity.
  - reflexivity.
Defined.

(** C7 as the specification states it fails for a value with a byte 0: the
    value is no case variant of a recognized name, and the error line that
    is written holds only the bytes before the byte 0, not the value. *)
Lemma C7_value_with_nul_not_in_log :
  (forall name, In name recognized_names ->
                ~ case_variant value_with_nul name) /\
  logOutput
    (world_after (@ProcessCPUPriorityValue Win32_x86 value_with_nul false)
       (quiet_world CannotOpen 1)) =
  [Line Error "Unsupported CPU priority value: a"] /\
  ~ Str.contains "Unsupported CPU priority value: a" value_with_nul.
Proof.
  split; [|split].
  - intros name Hin Hcv. apply EqualsIgnoreCase_case_variant in Hcv.
    simpl in Hin.
    repeat (destruct Hin as [<-|Hin]; [discriminate Hcv|]).
    contradiction.
  - reflexivity.
  - intros Hc. apply (contains_chars _ _ zero) in Hc.
    + simpl in Hc.
      repeat (destruct Hc as [Hc|Hc]; [discriminate Hc|]).
      contradiction.
    + simpl. tauto.
Qed.

(** ** Further properties of the bit trick *)

Section BitTrickProperties.

Import MachineInt.

Context {P : Platform}.

Lemma lowest_bit_unique (v i j : Z) :
  Z.testbit v i = true -> (forall k, 0 <= k < i -> Z.testbit v k = false) ->
  Z.testbit v j = true -> (forall k, 0 <= k < j -> Z.testbit v k = false) ->
  0 <= i -> 0 <= j -> i = j.
Proof.
  intros Hi Hli Hj Hlj H0i H0j.
  destruct (Z.lt_trichotomy i j) as [Hlt|[Heq|Hgt]]; [|exact Heq|].
  - rewrite Hlj in Hi by lia. discriminate.
  - rewrite Hli in Hj by lia. discriminate.
Qed.

Lemma is_lowest_set_bit_unique (v r r' : Z) :
  is_lowest_set_bit v r -> is_lowest_set_bit v r' -> r = r'.
Proof.
  intros (i & Hi & -> & Hset & Hlow) (j & Hj & -> & Hset' & Hlow').
  f_equal. eapply lowest_bit_unique; eassumption.
Qed.

Lemma set_bit_le (v i : Z) :
  0 <= v -> 0 <= i -> Z.testbit v i = true -> 2 ^ i <= v.
Proof.
  intros Hv Hi Hset.
  destruct (Z.le_gt_cases (2 ^ i) v) as [Hle|Hgt]; [exact Hle|].
  exfalso. destruct (Z.eq_dec v 0) as [->|Hne].
  - rewrite Z.bits_0 in Hset. discriminate.
  - rewrite Z.bits_above_log2 in Hset; [discriminate | lia |].
    apply Z.log2_lt_pow2; lia.
Qed.

Lemma GetLowestSetBitMask_unbounded (v : Z) :
  0 < ptr_bits -> in_range ptr_bits v ->
  GetLowestSetBitMask v = Z.land v (- v).
Proof.
  intros Hbits Hr.
  rewrite GetLowestSetBitMask_land by assumption.
  rewrite <- Z.land_ones by lia.
  rewrite (Z.land_comm (- v)), Z.land_assoc, Z.land_ones by lia.
  now rewrite (Z.mod_small v) by exact Hr.
Qed.

(** X1.  On a value of the type, the casts through [uintptr_t] and
    [intptr_t] change nothing: the result is [v & -v] computed on unbounded
    integers, also for the value with only the top bit set, whose negation
    does not fit [intptr_t].  The result is again a value of the type and is
    not greater than [v]. *)
Theorem GetLowestSetBitMask_is_land_opp (v : Z) :
  0 < ptr_bits -> in_range ptr_bits v ->
  GetLowestSetBitMask v = Z.land v (- v) /\
  in_range ptr_bits (GetLowestSetBitMask v) /\
  GetLowestSetBitMask v <= v.
Proof.
  intros Hbits Hr.
  assert (H2 : 0 < 2 ^ ptr_bits) by (apply pow2_pos; lia).
  split; [apply GetLowestSetBitMask_unbounded; assumption|]. split.
  - unfold GetLowestSetBitMask, to_unsigned at 1. apply Z.mod_pos_bound; lia.
  - destruct (Z.eq_dec v 0) as [->|Hne].
    + rewrite GetLowestSetBitMask_zero by assumption. lia.
    + destruct (GetLowestSetBitMask_lowest Hbits v Hr) as (i & Hi & -> & Hset & _).
      * destruct Hr; lia.
      * apply set_bit_le; [destruct Hr; lia | exact Hi | exact Hset].
Qed.

(** X2.  Applying the function twice is applying it once: a mask with one
    bit is its own lowest set bit. *)
Theorem GetLowestSetBitMask_idempotent (v : Z) :
  0 < ptr_bits -> in_range ptr_bits v ->
  GetLowestSetBitMask (GetLowestSetBitMask v) = GetLowestSetBitMask v.
Proof.
  intros Hbits Hr.
  destruct (Z.eq_dec v 0) as [->|Hne].
  - now rewrite !GetLowestSetBitMask_zero.
  - assert (Hpos : 0 < v) by (destruct Hr; lia).
    assert (Hr' : in_range ptr_bits (GetLowestSetBitMask v)).
    { assert (0 < 2 ^ ptr_bits) by (apply pow2_pos; lia).
      unfold GetLowestSetBitMask, to_unsigned at 1.
      apply Z.mod_pos_bound; lia. }
    destruct (GetLowestSetBitMask_lowest Hbits v Hr Hpos)
      as (i & Hi & Hv & _).
    assert (Hpos' : 0 < GetLowestSetBitMask v)
      by (rewrite Hv; apply pow2_pos; lia).
    destruct (GetLowestSetBitMask_lowest Hbits _ Hr' Hpos')
      as (j & Hj & Hv' & Hset & _).
    rewrite Hv', Hv. f_equal.
    rewrite Hv, Z.pow2_bits_eqb in Hset by lia.
    apply Z.eqb_eq in Hset. lia.
Qed.

(** X3.  The mask that is handed to [SetProcessAffinityMask] is 0 exactly
    when the system mask is 0, and it is 1, the value the comment at lines
    80-81 speaks of, exactly when the first logical processor is enabled. *)
Theorem GetLowestSetBitMask_zero_and_one (v : Z) :
  0 < ptr_bits -> in_range ptr_bits v ->
  (GetLowestSetBitMask v = 0 <-> v = 0) /\
  (GetLowestSetBitMask v = 1 <-> Z.testbit v 0 = true).
Proof.
  intros Hbits Hr. split; split.
  - intros H0. destruct (Z.eq_dec v 0) as [Hz|Hne]; [exact Hz|exfalso].
    destruct (GetLowestSetBitMask_lowest Hbits v Hr) as (i & Hi & Hv & _).
    + destruct Hr; lia.
    + pose proof (pow2_pos i Hi). lia.
  - intros ->. now apply GetLowestSetBitMask_zero.
  - intros H1. destruct (Z.eq_dec v 0) as [->|Hne].
    + rewrite GetLowestSetBitMask_zero in H1 by assumption. discriminate.
    + destruct (GetLowestSetBitMask_lowest Hbits v Hr)
        as (i & Hi & Hv & Hset & _); [destruct Hr; lia|].
      rewrite H1 in Hv.
      destruct (Z.eq_dec i 0) as [->|Hi0]; [exact Hset|exfalso].
      assert (2 ^ 1 <= 2 ^ i) by (apply Z.pow_le_mono_r; lia).
      change (2 ^ 1) with 2 in *. lia.
  - intros Hbit.
    assert (Hpos : 0 < v).
    { destruct (Z.eq_dec v 0) as [->|Hne]; [discriminate Hbit|].
      destruct Hr; lia. }
    apply (is_lowest_set_bit_unique v).
    + now apply GetLowestSetBitMask_lowest.
    + exists 0. split; [lia|]. split; [reflexivity|].
      split; [exact Hbit | intros; lia].
Qed.

End BitTrickProperties.

(** X4.  The width of [DWORD_PTR] does not matter: a 32-bit and a 64-bit
    build, or any two builds, select the same processor for a system mask
    that fits both. *)
Theorem GetLowestSetBitMask_any_width (P1 P2 : Platform) (v : Z) :
  0 < @ptr_bits P1 -> 0 < @ptr_bits P2 ->
  MachineInt.in_range (@ptr_bits P1) v ->
  MachineInt.in_range (@ptr_bits P2) v ->
  @GetLowestSetBitMask P1 v = @GetLowestSetBitMask P2 v.
Proof.
  intros H1 H2 R1 R2.
  rewrite (@GetLowestSetBitMask_unbounded P1 v H1 R1).
  rewrite (@GetLowestSetBitMask_unbounded P2 v H2 R2).
  reflexivity.
Qed.

(** ** Further properties of the comparison of names *)

Lemma case_variant_refl (s : string) : case_variant s s.
Proof.
  induction s as [|c s IH]; constructor; [|exact IH].
  unfold same_letter. cbv zeta. left. reflexivity.
Qed.

(** X5.  [EqualsIgnoreCase] is true exactly for two strings of the same
    length that agree at every position up to the case of the letters a-z;
    its test of the lengths never changes the answer of [boost::iequals]. *)
Theorem EqualsIgnoreCase_decides_case_variant (lhs rhs : string) :
  (EqualsIgnoreCase lhs rhs = true <-> case_variant lhs rhs) /\
  EqualsIgnoreCase lhs rhs = Str.iequals lhs rhs.
Proof.
  split; [apply EqualsIgnoreCase_case_variant|].
  unfold EqualsIgnoreCase.
  destruct (Str.iequals lhs rhs) eqn:E; [|apply andb_false_r].
  apply iequals_case_variant, case_variant_length in E.
  rewrite E, Nat.eqb_refl. reflexivity.
Qed.

(** X6.  [EqualsIgnoreCase] is an equivalence: every string equals itself,
    the order of the arguments does not matter, and two strings equal to a
    third are equal to each other. *)
Theorem EqualsIgnoreCase_equivalence (a b c : string) :
  EqualsIgnoreCase a a = true /\
  EqualsIgnoreCase a b = EqualsIgnoreCase b a /\
  (EqualsIgnoreCase a b = true -> EqualsIgnoreCase b c = true ->
   EqualsIgnoreCase a c = true).
Proof.
  split; [|split].
  - apply EqualsIgnoreCase_case_variant, case_variant_refl.
  - apply eq_true_iff_eq. rewrite !EqualsIgnoreCase_case_variant.
    split; apply case_variant_sym.
  - rewrite !EqualsIgnoreCase_case_variant. apply case_variant_trans.
Qed.

(** ** Further properties of [ProcessCPUPriorityValue] *)

Section PriorityProperties.

Context {P : Platform}.

(** When a class has been chosen, the rest of the function is the call of
    [SetPriorityClass] and the line that reports how it went. *)
Lemma ProcessCPUPriorityValue_call_run (s : string) (b : bool) (w : World) :
  cpuPriority_at_line_150 s b <> 0 ->
  ProcessCPUPriorityValue s b w =
  let cls := cpuPriority_at_line_150 s b in
  match setPriorityFails w cls with
  | None =>
      (inl tt,
       Upd.add_log
         (Line Info
            (Str.format_s "Set the game's CPU priority to %s." (Str.c_str s)))
         (Upd.put_priorityClass cls
            (Upd.add_call (CallSetPriorityClass cls) w)))
  | Some err =>
      (inl tt,
       Upd.add_log
         (Line Error
            (Str.format_s
               "An OS error occurred when setting the CPU priority: %s." err))
         (Upd.put_lastError err (Upd.add_call (CallSetPriorityClass cls) w)))
  end.
Proof.
  unfold cpuPriority_at_line_150, ProcessCPUPriorityValue. run_plugin.
  destruct (EqualsIgnoreCase s "High");
    [|destruct (EqualsIgnoreCase s "AboveNormal");
      [|destruct (EqualsIgnoreCase s "Normal");
        [|destruct (EqualsIgnoreCase s "BelowNormal");
          [|destruct (EqualsIgnoreCase s "Idle");
            [|destruct (EqualsIgnoreCase s "Low");
              [destruct b|]]]]]];
    intros Hne; try (exfalso; apply Hne; reflexivity);
    apply Z.eqb_neq in Hne; cbn -[Z.eqb Str.format_s]; rewrite Hne;
    cbn -[Str.format_s];
    match goal with
    | |- context [setPriorityFails w ?c] => destruct (setPriorityFails w c)
    end; reflexivity.
Qed.

Lemma priority_calls_singleton (s : string) (b : bool) (w : World) (cls : Z) :
  osCalls (world_after (ProcessCPUPriorityValue s b) w) =
    (osCalls w ++ [CallSetPriorityClass cls])%list ->
  cpuPriority_at_line_150 s b = cls /\ cls <> 0.
Proof.
  intros H.
  pose proof (ProcessCPUPriorityValue_effect s b w) as (_ & Hc & _).
  rewrite Hc in H. apply app_inv_head in H. unfold priority_calls in H.
  cbv zeta in H.
  destruct (cpuPriority_at_line_150 s b =? 0) eqn:E; [discriminate|].
  injection H as H. apply Z.eqb_neq in E. rewrite H in E.
  split; [exact H | exact E].
Qed.

(** X7.  Each of the names High, AboveNormal, Normal, BelowNormal and Idle,
    in any letter case and from either source, leads to exactly one call of
    [SetPriorityClass], with the class of that name: the order of the tests
    lets no name hide another. *)
Theorem recognized_name_calls_its_class
    (s name : string) (cls : Z) (b : bool) (w : World) :
  In (name, cls) class_of_name -> case_variant s name -> cls <> 0 ->
  outcome (ProcessCPUPriorityValue s b) w = inl tt /\
  osCalls (world_after (ProcessCPUPriorityValue s b) w) =
    (osCalls w ++ [CallSetPriorityClass cls])%list.
Proof.
  intros Hin Hcv Hne.
  pose proof (ProcessCPUPriorityValue_effect s b w) as (Hok & Hc & _).
  split; [exact Hok|]. rewrite Hc. f_equal.
  unfold priority_calls. rewrite (cpuPriority_variant s name b Hcv).
  assert (Hcls : cpuPriority_at_line_150 name b = cls).
  { simpl in Hin.
    repeat (destruct Hin as [Hin|Hin];
            [injection Hin as <- <-; reflexivity|]).
    contradiction. }
  cbv zeta. rewrite Hcls. apply Z.eqb_neq in Hne. now rewrite Hne.
Qed.

(** X8.  The flag [isCPUPriorityArgument] matters for the value Low only:
    for every other value the function does the same with and without
    it. *)
Theorem flag_matters_for_low_only (s : string) (w : World) :
  ~ case_variant s "Low" ->
  ProcessCPUPriorityValue s true w = ProcessCPUPriorityValue s false w.
Proof.
  intros H.
  assert (Hlow : EqualsIgnoreCase s "Low" = false).
  { apply not_true_iff_false. now rewrite EqualsIgnoreCase_case_variant. }
  unfold ProcessCPUPriorityValue. rewrite Hlow. reflexivity.
Qed.

(** X9.  In the settings file Low is another name of Idle: the two values
    lead to the same calls and leave the process with the same priority
    class. *)
Theorem low_in_file_is_idle (s t : string) (w : World) :
  case_variant s "Low" -> case_variant t "Idle" ->
  osCalls (world_after (ProcessCPUPriorityValue s false) w) =
  osCalls (world_after (ProcessCPUPriorityValue t false) w) /\
  priorityClass (world_after (ProcessCPUPriorityValue s false) w) =
  priorityClass (world_after (ProcessCPUPriorityValue t false) w).
Proof.
  intros Hs Ht.
  pose proof (ProcessCPUPriorityValue_effect s false w) as (_ & Hc & Hp & _).
  pose proof (ProcessCPUPriorityValue_effect t false w) as (_ & Hc' & Hp' & _).
  assert (E : cpuPriority_at_line_150 s false
              = cpuPriority_at_line_150 t false).
  { rewrite (cpuPriority_variant s "Low" false Hs).
    rewrite (cpuPriority_variant t "Idle" false Ht). reflexivity. }
  rewrite Hc, Hc', Hp, Hp'. unfold priority_calls. rewrite E. split; reflexivity.
Qed.

(** X10.  When the call of [SetPriorityClass] is made and the operating
    system accepts it, the class asked for is the priority class of the
    process, and one informational line names the value as it was given, up
    to its first byte 0. *)
Theorem priority_call_accepted (s : string) (b : bool) (w : World) (cls : Z) :
  osCalls (world_after (ProcessCPUPriorityValue s b) w) =
    (osCalls w ++ [CallSetPriorityClass cls])%list ->
  setPriorityFails w cls = None ->
  let w' := world_after (ProcessCPUPriorityValue s b) w in
  priorityClass w' = cls /\
  logOutput w' =
    (logOutput w ++
     [Line Info
        ("Set the game's CPU priority to " ++ Str.c_str s ++ ".")%string])%list.
Proof.
  intros Hcall Hok w'.
  destruct (priority_calls_singleton s b w cls Hcall) as [Hcls Hne].
  subst w'. unfold world_after.
  rewrite ProcessCPUPriorityValue_call_run by (rewrite Hcls; exact Hne).
  cbv zeta. rewrite Hcls, Hok. split; reflexivity.
Qed.

(** X11.  When the call of [SetPriorityClass] is made and the operating
    system refuses it, the function still returns normally, the priority
    class of the process stays as it was, and one error line carries the
    text of the operating system. *)
Theorem priority_call_refused
    (s : string) (b : bool) (w : World) (cls : Z) (err : string) :
  osCalls (world_after (ProcessCPUPriorityValue s b) w) =
    (osCalls w ++ [CallSetPriorityClass cls])%list ->
  setPriorityFails w cls = Some err ->
  let w' := world_after (ProcessCPUPriorityValue s b) w in
  outcome (ProcessCPUPriorityValue s b) w = inl tt /\
  priorityClass w' = priorityClass w /\
  logOutput w' =
    (logOutput w ++
     [Line Error
        ("An OS error occurred when setting the CPU priority: "
           ++ err ++ ".")%string])%list.
Proof.
  intros Hcall Hfail w'.
  destruct (priority_calls_singleton s b w cls Hcall) as [Hcls Hne].
  subst w'. unfold world_after, outcome.
  rewrite ProcessCPUPriorityValue_call_run by (rewrite Hcls; exact Hne).
  cbv zeta. rewrite Hcls, Hfail. repeat split.
Qed.

End PriorityProperties.

(** ** Further properties of [ConfigureForSingleCPU] *)

Section AffinityProperties.

Context {P : Platform}.

(** X12.  When [GetProcessAffinityMask] fails, the affinity is not touched:
    no call of [SetProcessAffinityMask] follows, the function returns
    normally and one error line carries the text of the operating
    system. *)
Theorem affinity_query_refused (w : World) (err : string) :
  getAffinityFails w = Some err ->
  let w' := world_after ConfigureForSingleCPU w in
  outcome ConfigureForSingleCPU w = inl tt /\
  osCalls w' = (osCalls w ++ [CallGetProcessAffinityMask])%list /\
  processAffinityMask w' = processAffinityMask w /\
  logOutput w' =
    (logOutput w ++
     [Line Error
        ("An OS error occurred when configuring the game to use 1 CPU core: "
           ++ err ++ ".")%string])%list.
Proof.
  intros Hget w'.
  pose proof (ConfigureForSingleCPU_effect w) as (Hok & Hc & Hm & Hl & _).
  rewrite Hget in Hc, Hm, Hl. repeat split; assumption.
Qed.

(** X13.  When [SetProcessAffinityMask] refuses the mask, the process keeps
    its affinity mask, the function returns normally and one error line
    carries the text of the operating system; no line claims success. *)
Theorem affinity_change_refused (w : World) (err : string) :
  getAffinityFails w = None ->
  setAffinityFails w (GetLowestSetBitMask (systemAffinityMask w)) = Some err ->
  let w' := world_after ConfigureForSingleCPU w in
  outcome ConfigureForSingleCPU w = inl tt /\
  osCalls w' =
    (osCalls w ++
     [CallGetProcessAffinityMask;
      CallSetProcessAffinityMask
        (GetLowestSetBitMask (systemAffinityMask w))])%list /\
  processAffinityMask w' = processAffinityMask w /\
  logOutput w' =
    (logOutput w ++
     [Line Error
        ("An OS error occurred when configuring the game to use 1 CPU core: "
           ++ err ++ ".")%string])%list.
Proof.
  intros Hget Hset w'.
  pose proof (ConfigureForSingleCPU_effect w) as (Hok & Hc & Hm & Hl & _).
  rewrite Hget in Hc. rewrite Hget, Hset in Hm. rewrite Hget, Hset in Hl.
  repeat split; assumption.
Qed.

End AffinityProperties.

(** ** Further properties of [OnStart] *)

Section StartProperties.

Context {P : Platform}.

(** The calls of one run of [OnStart]: those of the affinity step, then
    those of the priority step. *)
Lemma OnStart_calls (w : World) :
  osCalls (world_after OnStart w) =
  (osCalls w ++
   match switches w "CPUCount" with
   | Some _ => []
   | None =>
       match getAffinityFails w with
       | None =>
           [CallGetProcessAffinityMask;
            CallSetProcessAffinityMask
              (GetLowestSetBitMask (systemAffinityMask w))]
       | Some _ => [CallGetProcessAffinityMask]
       end
   end ++
   match switches w "CPUPriority" with
   | Some v => priority_calls (Str.c_str v) true
   | None =>
       match configured_priority (settingsFile w) with
       | Some p => priority_calls p false
       | None => []
       end
   end)%list.
Proof.
  unfold world_after at 1. destruct (OnStart_steps w) as [Henv ->].
  cbn [snd].
  set (w1 := match switches w "CPUCount" with
             | Some _ => _ | None => _ end) in *.
  assert (H1 : osCalls w1 =
               (osCalls w ++
                match switches w "CPUCount" with
                | Some _ => []
                | None =>
                    match getAffinityFails w with
                    | None =>
                        [CallGetProcessAffinityMask;
                         CallSetProcessAffinityMask
                           (GetLowestSetBitMask (systemAffinityMask w))]
                    | Some _ => [CallGetProcessAffinityMask]
                    end
                end)%list).
  { subst w1. destruct (switches w "CPUCount").
    - cbn. now rewrite app_nil_r.
    - apply ConfigureForSingleCPU_effect. }
  destruct Henv as (_ & Hfile & _).
  rewrite app_assoc, <- H1.
  destruct (switches w "CPUPriority") as [v|].
  - apply ProcessCPUPriorityValue_effect.
  - rewrite <- Hfile. apply SetCPUPriorityFromConfigFile_summary.
Qed.

Lemma priority_calls_members (s : string) (b : bool) (c : OsCall) :
  In c (priority_calls s b) ->
  exists cls, c = CallSetPriorityClass cls /\ cls <> 0 /\
              In cls priority_classes.
Proof.
  unfold priority_calls. cbv zeta.
  destruct (cpuPriority_at_line_150 s b =? 0) eqn:E; [intros []|].
  intros [<-|[]]. apply Z.eqb_neq in E.
  eexists. split; [reflexivity|]. split; [exact E|].
  revert E. unfold cpuPriority_at_line_150, priority_classes, class_of_name.
  destruct (EqualsIgnoreCase s "High");
    [|destruct (EqualsIgnoreCase s "AboveNormal");
      [|destruct (EqualsIgnoreCase s "Normal");
        [|destruct (EqualsIgnoreCase s "BelowNormal");
          [|destruct (EqualsIgnoreCase s "Idle");
            [|destruct (EqualsIgnoreCase s "Low");
              [destruct b|]]]]]];
    intros E; simpl; try tauto; exfalso; apply E; reflexivity.
Qed.

(** X14.  Every mask that a run of [OnStart] hands to
    [SetProcessAffinityMask] has at most one bit set and lies within the
    system affinity mask; such a call is made only without the CPUCount
    switch. *)
Theorem OnStart_affinity_masks (w : World) (new : list OsCall) (m : Z) :
  0 < ptr_bits ->
  MachineInt.in_range ptr_bits (systemAffinityMask w) ->
  osCalls (world_after OnStart w) = (osCalls w ++ new)%list ->
  In (CallSetProcessAffinityMask m) new ->
  at_most_one_bit m /\ submask m (systemAffinityMask w) /\
  switches w "CPUCount" = None.
Proof.
  intros Hbits Hr Hnew Hin.
  rewrite OnStart_calls in Hnew. apply app_inv_head in Hnew. subst new.
  apply in_app_or in Hin. destruct Hin as [Hin|Hin].
  - destruct (switches w "CPUCount"); [destruct Hin|].
    assert (Hm : m = GetLowestSetBitMask (systemAffinityMask w)).
    { destruct (getAffinityFails w); simpl in Hin.
      - destruct Hin as [Hin|[]]. discriminate Hin.
      - destruct Hin as [Hin|[Hin|[]]]; [discriminate Hin|].
        now injection Hin. }
    subst m. split; [apply GetLowestSetBitMask_one_bit; assumption|].
    split; [apply GetLowestSetBitMask_submask; assumption | reflexivity].
  - exfalso.
    assert (Hp : exists cls, CallSetProcessAffinityMask m
                             = CallSetPriorityClass cls).
    { destruct (switches w "CPUPriority");
        [|destruct (configured_priority (settingsFile w)); [|destruct Hin]];
        destruct (priority_calls_members _ _ _ Hin) as (cls & E & _);
        exists cls; exact E. }
    destruct Hp as [cls Hp]. discriminate Hp.
Qed.

(** X15.  A run of [OnStart] never hands anything to [SetPriorityClass] but
    one of the five priority classes, and never the value 0. *)
Theorem OnStart_priority_classes (w : World) (new : list OsCall) (cls : Z) :
  osCalls (world_after OnStart w) = (osCalls w ++ new)%list ->
  In (CallSetPriorityClass cls) new ->
  cls <> 0 /\ In cls priority_classes.
Proof.
  intros Hnew Hin.
  rewrite OnStart_calls in Hnew. apply app_inv_head in Hnew. subst new.
  apply in_app_or in Hin. destruct Hin as [Hin|Hin].
  - exfalso. destruct (switches w "CPUCount"); [destruct Hin|].
    destruct (getAffinityFails w); simpl in Hin;
      repeat (destruct Hin as [Hin|Hin]; [discriminate Hin|]);
      destruct Hin.
  - assert (Hp : exists c, CallSetPriorityClass cls = CallSetPriorityClass c
                           /\ c <> 0 /\ In c priority_classes).
    { destruct (switches w "CPUPriority");
        [|destruct (configured_priority (settingsFile w)); [|destruct Hin]];
        exact (priority_calls_members _ _ _ Hin). }
    destruct Hp as (c & E & Hne & Hc). injection E as ->.
    split; assumption.
Qed.

(** X16.  The calls of a run of [OnStart] come in a fixed order: the query
    of the affinity masks, the change of the affinity mask, the change of
    the priority class, each at most once.  The first two are absent exactly
    with the CPUCount switch; the last depends on the CPUPriority switch and
    the settings file alone, not on how the affinity step went. *)
Theorem OnStart_call_order (w : World) :
  exists affinity priority,
    osCalls (world_after OnStart w) =
      (osCalls w ++ affinity ++ priority)%list /\
    (affinity = [] \/ affinity = [CallGetProcessAffinityMask] \/
     exists m, affinity = [CallGetProcessAffinityMask;
                           CallSetProcessAffinityMask m]) /\
    (priority = [] \/ exists cls, priority = [CallSetPriorityClass cls]) /\
    (affinity = [] <-> switches w "CPUCount" <> None) /\
    priority =
      match switches w "CPUPriority" with
      | Some v => priority_calls (Str.c_str v) true
      | None =>
          match configured_priority (settingsFile w) with
          | Some p => priority_calls p false
          | None => []
          end
      end.
Proof.
  eexists. eexists. split; [apply OnStart_calls|].
  split; [|split; [|split; [|reflexivity]]].
  - destruct (switches w "CPUCount"); [now left|].
    destruct (getAffinityFails w); [right; now left|].
    right; right. eexists. reflexivity.
  - unfold priority_calls. cbv zeta.
    destruct (switches w "CPUPriority");
      [|destruct (configured_priority (settingsFile w)); [|now left]];
      match goal with
      | |- context [?c =? 0] => destruct (c =? 0)
      end; solve [now left | right; eexists; reflexivity].
  - destruct (switches w "CPUCount"); split; intros H;
      try reflexivity; try discriminate; try congruence.
    + destruct (getAffinityFails w); discriminate H.
Qed.

Lemma ProcessCPUPriorityValue_other_file
    (s : string) (b : bool) (file : SettingsFile) (w : World) :
  ProcessCPUPriorityValue s b (with_settingsFile file w) =
  (fst (ProcessCPUPriorityValue s b w),
   with_settingsFile file (snd (ProcessCPUPriorityValue s b w))).
Proof.
  unfold ProcessCPUPriorityValue. run_plugin.
  destruct (EqualsIgnoreCase s "High");
    [|destruct (EqualsIgnoreCase s "AboveNormal");
      [|destruct (EqualsIgnoreCase s "Normal");
        [|destruct (EqualsIgnoreCase s "BelowNormal");
          [|destruct (EqualsIgnoreCase s "Idle");
            [|destruct (EqualsIgnoreCase s "Low");
              [destruct b|]]]]]];
    cbn [fst snd negb Z.eqb];
    match goal with
    | |- context [?c =? 0] => destruct (c =? 0); cbn [negb]
    | _ => idtac
    end;
    try match goal with
    | |- context [setPriorityFails w ?c] =>
        cbn [setPriorityFails with_settingsFile];
        destruct (setPriorityFails w c)
    end;
    reflexivity.
Qed.

Lemma ConfigureForSingleCPU_other_file (file : SettingsFile) (w : World) :
  ConfigureForSingleCPU (with_settingsFile file w) =
  (fst (ConfigureForSingleCPU w),
   with_settingsFile file (snd (ConfigureForSingleCPU w))).
Proof.
  unfold ConfigureForSingleCPU. run_plugin.
  cbn [getAffinityFails setAffinityFails systemAffinityMask with_settingsFile
       fst snd].
  destruct (getAffinityFails w); cbn -[GetLowestSetBitMask Str.format_s];
    [reflexivity|].
  destruct (setAffinityFails w (GetLowestSetBitMask (systemAffinityMask w)));
    reflexivity.
Qed.

(** X17.  With the CPUPriority switch on the command line the settings file
    is of no consequence: whatever it holds, and whether it exists at all,
    the run makes the same calls, leaves the same affinity mask and priority
    class, and writes the same log. *)
Theorem command_line_priority_overrides_file
    (w : World) (v : string) (file : SettingsFile) :
  switches w "CPUPriority" = Some v ->
  let r := world_after OnStart w in
  let r' := world_after OnStart (with_settingsFile file w) in
  osCalls r' = osCalls r /\
  processAffinityMask r' = processAffinityMask r /\
  priorityClass r' = priorityClass r /\
  logOutput r' = logOutput r.
Proof.
  intros Hprio r r'.
  assert (E : r' = with_settingsFile file r).
  { subst r r'. unfold world_after.
    destruct (OnStart_steps w) as [_ ->].
    destruct (OnStart_steps (with_settingsFile file w)) as [_ ->].
    cbn [snd switches with_settingsFile]. rewrite Hprio.
    unfold world_after.
    destruct (switches w "CPUCount") as [c|].
    - change (Upd.add_log ?l (with_settingsFile file w))
        with (with_settingsFile file (Upd.add_log l w)).
      now rewrite ProcessCPUPriorityValue_other_file.
    - rewrite ConfigureForSingleCPU_other_file. cbn [snd].
      now rewrite ProcessCPUPriorityValue_other_file. }
  rewrite E. repeat split.
Qed.

(** X18.  The value Low of the CPUPriority switch, in any letter case,
    keeps the plugin from changing the priority at all: no call of
    [SetPriorityClass] is made and the priority class stays as the host set
    it, even when the settings file asks for another class. *)
Theorem command_line_low_keeps_priority
    (w : World) (v : string) (new : list OsCall) :
  switches w "CPUPriority" = Some v ->
  case_variant (Str.c_str v) "Low" ->
  osCalls (world_after OnStart w) = (osCalls w ++ new)%list ->
  count_priority_calls new = 0%nat /\
  priorityClass (world_after OnStart w) = priorityClass w.
Proof.
  intros Hprio Hlow Hnew.
  assert (Hcls : cpuPriority_at_line_150 (Str.c_str v) true = 0).
  { now rewrite (cpuPriority_variant _ "Low" true Hlow). }
  split.
  - rewrite OnStart_calls in Hnew. apply app_inv_head in Hnew. subst new.
    rewrite Hprio, count_priority_calls_app.
    unfold priority_calls. cbv zeta. rewrite Hcls.
    destruct (switches w "CPUCount"); [reflexivity|].
    destruct (getAffinityFails w); reflexivity.
  - unfold world_after at 1. destruct (OnStart_steps w) as [_ ->].
    cbn [snd]. rewrite Hprio.
    set (w1 := match switches w "CPUCount" with
               | Some _ => _ | None => _ end).
    pose proof (ProcessCPUPriorityValue_effect (Str.c_str v) true w1)
      as (_ & _ & Hp & _).
    rewrite Hp, Hcls. cbn [Z.eqb]. subst w1.
    destruct (switches w "CPUCount"); [reflexivity|].
    apply ConfigureForSingleCPU_effect.
Qed.

Lemma ProcessCPUPriorityValue_one_line (s : string) (b : bool) (w : World) :
  classes_nonzero ->
  exists level text,
    logOutput (world_after (ProcessCPUPriorityValue s b) w) =
    (logOutput w ++ [Line level text])%list.
Proof.
  intros Hnz.
  destruct (Z.eq_dec (cpuPriority_at_line_150 s b) 0) as [Hz|Hne].
  - revert Hz. unfold cpuPriority_at_line_150, ProcessCPUPriorityValue.
    run_plugin.
    destruct (EqualsIgnoreCase s "High");
      [|destruct (EqualsIgnoreCase s "AboveNormal");
        [|destruct (EqualsIgnoreCase s "Normal");
          [|destruct (EqualsIgnoreCase s "BelowNormal");
            [|destruct (EqualsIgnoreCase s "Idle");
              [|destruct (EqualsIgnoreCase s "Low");
                [destruct b|]]]]]];
      intros Hz;
      try (exfalso; revert Hz; apply Hnz;
           unfold priority_classes, class_of_name; simpl; tauto);
      cbn -[Str.format_s]; eexists; eexists; reflexivity.
  - unfold world_after. rewrite ProcessCPUPriorityValue_call_run by exact Hne.
    cbv zeta.
    destruct (setPriorityFails w (cpuPriority_at_line_150 s b));
      cbn -[Str.format_s]; eexists; eexists; reflexivity.
Qed.

(** X19.  Every call of [ProcessCPUPriorityValue] writes exactly one line
    to the log, whatever the value and however the operating system
    answers, the five priority classes being different from 0. *)
Theorem ProcessCPUPriorityValue_writes_one_line
    (s : string) (b : bool) (w : World) :
  classes_nonzero ->
  exists level text,
    logOutput (world_after (ProcessCPUPriorityValue s b) w) =
    (logOutput w ++ [Line level text])%list.
Proof.
  intros Hnz.
  destruct (Z.eq_dec (cpuPriority_at_line_150 s b) 0) as [Hz|Hne].
  - revert Hz. unfold cpuPriority_at_line_150, ProcessCPUPriorityValue.
    run_plugin.
    destruct (EqualsIgnoreCase s "High");
      [|destruct (EqualsIgnoreCase s "AboveNormal");
        [|destruct (EqualsIgnoreCase s "Normal");
          [|destruct (EqualsIgnoreCase s "BelowNormal");
            [|destruct (EqualsIgnoreCase s "Idle");
              [|destruct (EqualsIgnoreCase s "Low");
                [destruct b|]]]]]];
      intros Hz;
      try (exfalso; revert Hz; apply Hnz;
           unfold priority_classes, class_of_name; simpl; tauto);
      cbn -[Str.format_s]; eexists; eexists; reflexivity.
  - unfold world_after. rewrite ProcessCPUPriorityValue_call_run by exact Hne.
    cbv zeta.
    destruct (setPriorityFails w (cpuPriority_at_line_150 s b));
      cbn -[Str.format_s]; eexists; eexists; reflexivity.
Qed.

(** X20.  A run of [OnStart] writes exactly two lines to the log, the first
    about the affinity and the second about the priority, in every world,
    the five priority classes being different from 0. *)
Theorem OnStart_writes_two_lines (w : World) :
  classes_nonzero ->
  exists level1 text1 level2 text2,
    logOutput (world_after OnStart w) =
    (logOutput w ++ [Line level1 text1; Line level2 text2])%list.
Proof.
  intros Hnz.
  unfold world_after at 1. destruct (OnStart_steps w) as [_ ->]. cbn [snd].
  set (w1 := match switches w "CPUCount" with
             | Some _ => _ | None => _ end).
  assert (H1 : exists level text,
             logOutput w1 = (logOutput w ++ [Line level text])%list).
  { subst w1. destruct (switches w "CPUCount").
    - eexists. eexists. reflexivity.
    - pose proof (ConfigureForSingleCPU_effect w) as (_ & _ & _ & Hl & _).
      rewrite Hl.
      destruct (getAffinityFails w);
        [|destruct (setAffinityFails w _)]; eexists; eexists; reflexivity. }
  destruct H1 as (level1 & text1 & H1). exists level1, text1.
  assert (H2 : exists level text,
             logOutput
               match switches w "CPUPriority" with
               | Some v =>
                   world_after (ProcessCPUPriorityValue (Str.c_str v) true) w1
               | None => world_after SetCPUPriorityFromConfigFile w1
               end = (logOutput w1 ++ [Line level text])%list).
  { destruct (switches w "CPUPriority").
    - now apply ProcessCPUPriorityValue_one_line.
    - pose proof (SetCPUPriorityFromConfigFile_effect w1) as H.
      unfold world_after at 1.
      destruct (configured_priority (settingsFile w1)).
      + rewrite H. now apply ProcessCPUPriorityValue_one_line.
      + destruct H as [msg ->]. eexists. eexists. reflexivity. }
  destruct H2 as (level2 & text2 & H2). exists level2, text2.
  rewrite H2, H1, <- app_assoc. reflexivity.
Qed.

Lemma c_str_idempotent (s : string) : Str.c_str (Str.c_str s) = Str.c_str s.
Proof.
  induction s as [|c s IH]; simpl; [reflexivity|].
  destruct (Ascii.eqb c zero) eqn:E; simpl; [reflexivity|].
  now rewrite E, IH.
Qed.

(** X21.  A value found at [CPUOptions.Priority] of the settings file is
    handled exactly as [ProcessCPUPriorityValue] handles it without the
    command-line flag; the reading of the file adds no call, no line and no
    other effect of its own. *)
Theorem settings_file_value_is_processed
    (w : World) (tree : ptree) (value : string)
    (children : list (string * ptree)) :
  settingsFile w = Parsed tree ->
  Ini.walk_path ["CPUOptions"; "Priority"]%string tree =
    Some (Node value children) ->
  SetCPUPriorityFromConfigFile w = ProcessCPUPriorityValue value false w.
Proof.
  intros Hfile Hwalk.
  pose proof (SetCPUPriorityFromConfigFile_effect w) as H.
  unfold configured_priority in H. rewrite Hfile, Hwalk in H. exact H.
Qed.

(** X22.  A value of the CPUPriority switch reaches
    [ProcessCPUPriorityValue] as a C string and so has no byte 0: when it is
    none of the six names, the error line ends with the value exactly as the
    function received it. *)
Theorem command_line_value_logged_whole (w : World) (v : string) :
  let s := Host.ToChar v in
  (forall name, In name recognized_names -> ~ case_variant s name) ->
  Str.nul_free s = true /\
  logOutput (world_after (ProcessCPUPriorityValue s true) w) =
    (logOutput w ++
     [Line Error ("Unsupported CPU priority value: " ++ s)%string])%list.
Proof.
  intros s H.
  assert (Hnul : Str.nul_free s = true).
  { subst s. unfold Host.ToChar. clear H.
    induction v as [|c v IH]; simpl; [reflexivity|].
    destruct (Ascii.eqb c zero) eqn:E; simpl; [reflexivity|].
    now rewrite E, IH. }
  split; [exact Hnul|].
  pose proof (unrecognized_compares_false s H) as Hf.
  unfold world_after, ProcessCPUPriorityValue.
  rewrite !Hf by (simpl; tauto).
  run_plugin. cbn. rewrite append_empty_r.
  subst s. unfold Host.ToChar. now rewrite c_str_idempotent.
Qed.

End StartProperties.

(** ** The further properties on concrete inputs *)

Lemma classes_nonzero_x86 : @classes_nonzero Win32_x86.
Proof.
  intros cls Hin. simpl in Hin.
  repeat (destruct Hin as [<-|Hin]; [discriminate|]). contradiction.
Qed.

Lemma top_bit_in_range : MachineInt.in_range (@ptr_bits Win32_x86) 0x80000000.
Proof. unfold MachineInt.in_range. simpl. lia. Qed.

Lemma X1_on_top_bit :
  @GetLowestSetBitMask Win32_x86 0x80000000 = Z.land 0x80000000 (- 0x80000000) /\
  MachineInt.in_range 32 (@GetLowestSetBitMask Win32_x86 0x80000000) /\
  @GetLowestSetBitMask Win32_x86 0x80000000 <= 0x80000000.
Proof.
  apply (@GetLowestSetBitMask_is_land_opp Win32_x86 0x80000000).
  - reflexivity.
  - exact top_bit_in_range.
Defined.

Lemma X2_on_mask_12 :
  @GetLowestSetBitMask Win32_x86 (@GetLowestSetBitMask Win32_x86 12) =
  @GetLowestSetBitMask Win32_x86 12.
Proof.
  apply (@GetLowestSetBitMask_idempotent Win32_x86 12).
  - reflexivity.
  - unfold MachineInt.in_range. simpl. lia.
Defined.

Lemma X3_on_mask_10 :
  (@GetLowestSetBitMask Win32_x86 10 = 0 <-> 10 = 0) /\
  (@GetLowestSetBitMask Win32_x86 10 = 1 <-> Z.testbit 10 0 = true).
Proof.
  apply (@GetLowestSetBitMask_zero_and_one Win32_x86 10).
  - reflexivity.
  - unfold MachineInt.in_range. simpl. lia.
Defined.

Lemma X4_on_top_bit :
  @GetLowestSetBitMask Win32_x86 0x80000000 =
  @GetLowestSetBitMask Win32_x64 0x80000000.
Proof.
  apply (GetLowestSetBitMask_any_width Win32_x86 Win32_x64 0x80000000).
  - reflexivity.
  - reflexivity.
  - exact top_bit_in_range.
  - unfold MachineInt.in_range. simpl. lia.
Defined.

Lemma X7_on_above_normal :
  outcome (@ProcessCPUPriorityValue Win32_x86 "aboveNORMAL" true)
    example_world = inl tt /\
  osCalls (world_after (@ProcessCPUPriorityValue Win32_x86 "aboveNORMAL" true)
             example_world) = [CallSetPriorityClass 0x8000].
Proof.
  apply (@recognized_name_calls_its_class Win32_x86 "aboveNORMAL"
           "AboveNormal" 0x8000 true example_world).
  - simpl. right. left. reflexivity.
  - apply EqualsIgnoreCase_case_variant. reflexivity.
  - discriminate.
Defined.

Lemma X8_on_high :
  @ProcessCPUPriorityValue Win32_x86 "High" true example_world =
  @ProcessCPUPriorityValue Win32_x86 "High" false example_world.
Proof.
  apply (@flag_matters_for_low_only Win32_x86 "High" example_world).
  intros H. apply EqualsIgnoreCase_case_variant in H. discriminate H.
Defined.

Lemma X9_on_low_and_idle :
  osCalls (world_after (@ProcessCPUPriorityValue Win32_x86 "LOW" false)
             example_world) =
  osCalls (world_after (@ProcessCPUPriorityValue Win32_x86 "idle" false)
             example_world) /\
  priorityClass (world_after (@ProcessCPUPriorityValue Win32_x86 "LOW" false)
                   example_world) =
  priorityClass (world_after (@ProcessCPUPriorityValue Win32_x86 "idle" false)
                   example_world).
Proof.
  apply (@low_in_file_is_idle Win32_x86 "LOW" "idle" example_world).
  - apply EqualsIgnoreCase_case_variant. reflexivity.
  - apply EqualsIgnoreCase_case_variant. reflexivity.
Defined.

Lemma X10_on_high :
  let w' := world_after (@ProcessCPUPriorityValue Win32_x86 "high" true)
              example_world in
  priorityClass w' = 0x80 /\
  logOutput w' = [Line Info "Set the game's CPU priority to high."].
Proof.
  apply (@priority_call_accepted Win32_x86 "high" true example_world 0x80).
  - reflexivity.
  - reflexivity.
Defined.

Lemma X11_on_refusal :
  let w' := world_after (@ProcessCPUPriorityValue Win32_x86 "high" true)
              world_refusing_changes in
  outcome (@ProcessCPUPriorityValue Win32_x86 "high" true)
    world_refusing_changes = inl tt /\
  priorityClass w' = 0x20 /\
  logOutput w' =
    [Line Error
       "An OS error occurred when setting the CPU priority: Access is denied."].
Proof.
  apply (@priority_call_refused Win32_x86 "high" true world_refusing_changes
           0x80 "Access is denied").
  - reflexivity.
  - reflexivity.
Defined.

Lemma X12_on_refusal :
  let w' := world_after (@ConfigureForSingleCPU Win32_x86)
              world_refusing_every_call in
  outcome (@ConfigureForSingleCPU Win32_x86) world_refusing_every_call
    = inl tt /\
  osCalls w' = [CallGetProcessAffinityMask] /\
  processAffinityMask w' = 10 /\
  logOutput w' =
    [Line Error
       "An OS error occurred when configuring the game to use 1 CPU core: Access is denied."].
Proof.
  apply (@affinity_query_refused Win32_x86 world_refusing_every_call
           "Access is denied").
  reflexivity.
Defined.

Lemma X13_on_refusal :
  let w' := world_after (@ConfigureForSingleCPU Win32_x86)
              world_refusing_changes in
  outcome (@ConfigureForSingleCPU Win32_x86) world_refusing_changes
    = inl tt /\
  osCalls w' = [CallGetProcessAffinityMask; CallSetProcessAffinityMask 2] /\
  processAffinityMask w' = 10 /\
  logOutput w' =
    [Line Error
       "An OS error occurred when configuring the game to use 1 CPU core: Access is denied."].
Proof.
  apply (@affinity_change_refused Win32_x86 world_refusing_changes
           "Access is denied").
  - reflexivity.
  - reflexivity.
Defined.

Lemma X14_on_example_world :
  at_most_one_bit 2 /\ submask 2 10 /\
  switches example_world "CPUCount" = None.
Proof.
  apply (@OnStart_affinity_masks Win32_x86 example_world
           [CallGetProcessAffinityMask; CallSetProcessAffinityMask 2;
            CallSetPriorityClass 0x8000] 2).
  - reflexivity.
  - unfold MachineInt.in_range. simpl. lia.
  - reflexivity.
  - simpl. right. left. reflexivity.
Defined.

Lemma X15_on_example_world :
  0x8000 <> 0 /\ In 0x8000 (@priority_classes Win32_x86).
Proof.
  apply (@OnStart_priority_classes Win32_x86 example_world
           [CallGetProcessAffinityMask; CallSetProcessAffinityMask 2;
            CallSetPriorityClass 0x8000] 0x8000).
  - reflexivity.
  - simpl. right. right. left. reflexivity.
Defined.

Lemma X17_on_missing_file :
  let w := with_switch "CPUPriority" "High" example_world in
  let r := world_after (@OnStart Win32_x86) w in
  let r' := world_after (@OnStart Win32_x86) (with_settingsFile CannotOpen w) in
  osCalls r' = osCalls r /\
  processAffinityMask r' = processAffinityMask r /\
  priorityClass r' = priorityClass r /\
  logOutput r' = logOutput r.
Proof.
  apply (@command_line_priority_overrides_file Win32_x86
           (with_switch "CPUPriority" "High" example_world) "High" CannotOpen).
  reflexivity.
Defined.

Lemma X18_on_low :
  let w := with_switch "CPUPriority" "low" example_world in
  count_priority_calls
    [CallGetProcessAffinityMask; CallSetProcessAffinityMask 2] = 0%nat /\
  priorityClass (world_after (@OnStart Win32_x86) w) = 0x20.
Proof.
  apply (@command_line_low_keeps_priority Win32_x86
           (with_switch "CPUPriority" "low" example_world) "low"
           [CallGetProcessAffinityMask; CallSetProcessAffinityMask 2]).
  - reflexivity.
  - apply EqualsIgnoreCase_case_variant. reflexivity.
  - reflexivity.
Defined.

Lemma X19_on_bogus :
  exists level text,
    logOutput (world_after (@ProcessCPUPriorityValue Win32_x86 "bogus" false)
                 world_refusing_changes) = [Line level text].
Proof.
  apply (@ProcessCPUPriorityValue_writes_one_line Win32_x86 "bogus" false
           world_refusing_changes).
  exact classes_nonzero_x86.
Defined.

Lemma X20_on_refusal :
  exists level1 text1 level2 text2,
    logOutput (world_after (@OnStart Win32_x86) world_refusing_every_call) =
    [Line level1 text1; Line level2 text2].
Proof.
  apply (@OnStart_writes_two_lines Win32_x86 world_refusing_every_call).
  exact classes_nonzero_x86.
Defined.

Lemma X21_on_example_world :
  @SetCPUPriorityFromConfigFile Win32_x86 example_world =
  @ProcessCPUPriorityValue Win32_x86 "AboveNormal" false example_world.
Proof.
  apply (@settings_file_value_is_processed Win32_x86 example_world
           (ini_with_priority "AboveNormal") "AboveNormal" []).
  - reflexivity.
  - reflexivity.
Defined.

Lemma X22_on_bogus :
  Str.nul_free (Host.ToChar "bogus") = true /\
  logOutput (world_after
               (@ProcessCPUPriorityValue Win32_x86 (Host.ToChar "bogus") true)
               example_world) =
  [Line Error "Unsupported CPU priority value: bogus"].
Proof.
  apply (@command_line_value_logged_whole Win32_x86 example_world "bogus").
  exact bogus_unrecognized.
Defined.

